(** * The Haxe back end of TARDIS Go: type lowering, conversions, type
      changes, type assertions and the runtime type tables

    A shallow embedding of [haxe/types.go].  Go strings are byte strings
    ([string], a list of [ascii]); the diagnostics written through
    [pogo.LogWarning] and [pogo.LogError] are collected in a log that every
    computation returns next to its value; a Go panic (failed type
    assertion, index out of range) and the exhaustion of the recursion
    budget are explicit outcomes. *)

From Stdlib Require Import ZArith Ascii String List Bool Lia.
From stdpp Require Import base option list strings pretty gmap.

Local Open Scope Z_scope.

(** ** Characters that cannot be written inside a string literal *)

Definition dquote : string := String (ascii_of_nat 34) EmptyString.
Definition nl : string := String (ascii_of_nat 10) EmptyString.

(** ** The Go string functions the source uses *)

Module strings.

(** [strings.Split(s, sep)] for a one-byte separator: always at least one
    piece. *)
Fixpoint Split (sep : ascii) (s : string) : list string :=
  match s with
  | EmptyString => [EmptyString]
  | String c r =>
      if Ascii.eqb c sep then EmptyString :: Split sep r
      else match Split sep r with
           | h :: t => String c h :: t
           | [] => [String c EmptyString]
           end
  end.

(** [strings.Replace(s, old, new, -1)] for a non-empty [old]: matches are
    taken left to right and do not overlap.  [skip] counts the bytes of
    the match that are still to be dropped. *)
Fixpoint ReplaceFrom (old new : string) (skip : nat) (s : string) : string :=
  match s with
  | EmptyString => EmptyString
  | String c r =>
      match skip with
      | S k => ReplaceFrom old new k r
      | O =>
          if String.prefix old s
          then new +:+ ReplaceFrom old new (Nat.pred (String.length old)) r
          else String c (ReplaceFrom old new O r)
      end
  end.

Definition Replace (s old new : string) : string := ReplaceFrom old new O s.

Definition HasPrefix (s p : string) : bool := String.prefix p s.

(** [strings.Trim(s, cutset)] for a one-byte cutset. *)
Fixpoint TrimLeft (c : ascii) (s : string) : string :=
  match s with
  | EmptyString => EmptyString
  | String a r => if Ascii.eqb a c then TrimLeft c r else s
  end.

Fixpoint TrimRight (c : ascii) (s : string) : string :=
  match s with
  | EmptyString => EmptyString
  | String a r =>
      match TrimRight c r with
      | EmptyString => if Ascii.eqb a c then EmptyString
                       else String a EmptyString
      | r' => String a r'
      end
  end.

Definition Trim (s : string) (c : ascii) : string := TrimRight c (TrimLeft c s).

End strings.

(** [s[:len(s)-1]] on a non-empty string. *)
Fixpoint dropLast (s : string) : string :=
  match s with
  | EmptyString => EmptyString
  | String c EmptyString => EmptyString
  | String c r => String c (dropLast r)
  end.

(** ** go/types: the source type system as the back end sees it *)

Module types.

Inductive BasicKind : Set :=
| Invalid
| Bool | Int | Int8 | Int16 | Int32 | Int64
| Uint | Uint8 | Uint16 | Uint32 | Uint64 | Uintptr
| Float32 | Float64 | Complex64 | Complex128
| String | UnsafePointer
| UntypedBool | UntypedInt | UntypedRune | UntypedFloat
| UntypedComplex | UntypedString | UntypedNil.

(** The two aliases of go/types. *)
Definition Byte : BasicKind := Uint8.
Definition Rune : BasicKind := Int32.

(** [Info()&types.IsUnsigned != 0]. *)
Definition IsUnsigned (k : BasicKind) : bool :=
  match k with
  | Uint | Uint8 | Uint16 | Uint32 | Uint64 | Uintptr => true
  | _ => false
  end.

(** A named type is a reference to its declaration, so that a type may
    mention itself; every other implementation of the [types.Type]
    interface (the iterator type of the SSA package among them) is [Other],
    with the name [reflect.TypeOf] gives it. *)
#[warnings="-register-all"]
Inductive type : Type :=
| Basic (k : BasicKind)
| Named (obj : string)
| Interface
| Pointer (elem : type)
| Slice (elem : type)
| Array (elem : type) (len : Z)
| Struct (fields : list (string * type))
| Map (key elem : type)
| Chan (elem : type)
| Signature (params results : list type)
| Tuple (vars : list type)
| Other (rTyp : string).

End types.

(** ** go/ssa: the values handed to the back end *)

Module ssa.

Record Function : Type := {
  Name : string;
  Recv : option types.type;   (* [Signature.Recv()], [None] for nil *)
  Pkg : option string;        (* [Pkg.Object.Name()], [None] for a nil Pkg *)
  Params : list types.type;
  Results : list types.type
}.

(** [Fn] is a value of dynamic type [*ssa.Function]; [Val] is any other
    value, of which only the static type is inspected here. *)
Inductive Value : Type :=
| Fn (f : Function)
| Val (id : string) (typ : types.type).

(** [v.Type()]. *)
Definition TypeOf (v : Value) : types.type :=
  match v with
  | Fn f => types.Signature (Params f) (Results f)
  | Val _ t => t
  end.

End ssa.

(** ** Diagnostics and outcomes *)

Inductive severity : Set := Warning | Error.

(** What [pogo.LogWarning] and [pogo.LogError] are given: a position, the
    tag of the back end and the message. *)
Record diag : Type := Diag {
  sev : severity;
  pos : string;
  backend : string;
  msg : string
}.

Inductive res (A : Type) : Type :=
| Done (a : A) (log : list diag)
| Panic
| OutOfFuel.

Arguments Done {A} a log.
Arguments Panic {A}.
Arguments OutOfFuel {A}.

#[global] Instance res_ret : MRet res := fun A a => Done a [].

#[global] Instance res_bind : MBind res := fun A B f m =>
  match m with
  | Done a l =>
      match f a with
      | Done b l' => Done b (l ++ l')
      | Panic => Panic
      | OutOfFuel => OutOfFuel
      end
  | Panic => Panic
  | OutOfFuel => OutOfFuel
  end.

(** Modelled from the spec: [pogo.LogWarning], of package pogo, which is
    not part of this file, records a diagnostic, made of a position, the
    tag of the back end and the message, and lets the compilation go on. *)
Definition LogWarning (errorInfo lang m : string) : res unit :=
  Done tt [Diag Warning errorInfo lang m].

(** Modelled from the spec: [pogo.LogError], of package pogo, records a
    diagnostic in the same way; the errors are reported after the pass. *)
Definition LogError (errorInfo lang m : string) : res unit :=
  Done tt [Diag Error errorInfo lang m].

Definition hasWarning (l : list diag) : bool :=
  existsb (fun d => match sev d with Warning => true | Error => false end) l.

Definition hasError (l : list diag) : bool :=
  existsb (fun d => match sev d with Error => true | Warning => false end) l.

(** ** getHaxeClass *)

(** Indexing the first byte of an empty string and slicing [[1:]] out of an
    empty string panic in Go. *)
Definition getHaxeClass (fullname : string) : res string :=
  match fullname with
  | EmptyString => Panic
  | String c _ =>
      if negb (Ascii.eqb c "*"%char) then
        let bits := strings.Split "/"%char fullname in
        let s := List.last bits EmptyString in
        match s with
        | EmptyString => Panic
        | String c0 _ =>
            if Ascii.eqb c0 "_"%char then
              match strings.Split "."%char s with
              | [_; s1] =>
                  match s1 with
                  | EmptyString => Panic
                  | String _ goType =>
                      let haxeType := strings.Replace goType "_" "." in
                      mret (strings.Replace haxeType "..." ".")
                  end
              | _ => mret EmptyString
              end
            else mret EmptyString
        end
      else mret EmptyString
  end.

(** ** preprocessTypeName *)

(** The loop runs over the characters of the name; the two it looks for
    are single bytes, and every other byte is copied. *)
Fixpoint preprocessLoop (hadbackslash : bool) (content : string) : string :=
  match content with
  | EmptyString => EmptyString
  | String c r =>
      if hadbackslash then String c (preprocessLoop false r)
      else if Ascii.eqb c (ascii_of_nat 34)
      then String "\"%char (String (ascii_of_nat 34) (preprocessLoop false r))
      else if Ascii.eqb c "\"%char then String c (preprocessLoop true r)
      else String c (preprocessLoop false r)
  end.

Definition preprocessTypeName (v : string) : string :=
  preprocessLoop false (strings.Trim v (ascii_of_nat 34)).

(** ** Integer kinds and their widths *)

(** The width in bits of the integer kinds.  [int], [uint] and [uintptr]
    are one word, of 32 bits in this back end ([loadStoreSuffix] reads and
    writes [int] and [uint] as [_int32(] and [_uint32(]); an untyped rune
    constant has the default type [rune], that is [int32].  The untyped
    integer constant has no width. *)
Definition integerBits (k : types.BasicKind) : option Z :=
  match k with
  | types.Int8 | types.Uint8 => Some 8
  | types.Int16 | types.Uint16 => Some 16
  | types.Int | types.Uint | types.Uintptr | types.Int32 | types.Uint32
  | types.UntypedRune => Some 32
  | types.Int64 | types.Uint64 => Some 64
  | _ => None
  end.

(** The two texts of which the source says that they make the Haxe
    compiler fail. *)
Definition failsHaxeCompilation (s : string) : bool :=
  String.eqb s "UNTYPED_INT" || String.eqb s "UNKNOWN_LANGTYPE".

(** The basic kinds for which [LangType] logs a warning. *)
Definition warnedKind (k : types.BasicKind) : bool :=
  match k with
  | types.UntypedInt | types.UnsafePointer | types.Invalid
  | types.UntypedNil => true
  | _ => false
  end.

(** ** reflect: the kinds of the runtime type table *)

Module reflect.

Inductive Kind : Set :=
| Invalid
| Bool | Int | Int8 | Int16 | Int32 | Int64
| Uint | Uint8 | Uint16 | Uint32 | Uint64 | Uintptr
| Float32 | Float64 | Complex64 | Complex128
| Array | Chan | Func | Interface | Map | Ptr | Slice | String | Struct
| UnsafePointer.

(** The number of a kind, as [%d] prints it. *)
Definition code (k : Kind) : Z :=
  match k with
  | Invalid => 0
  | Bool => 1 | Int => 2 | Int8 => 3 | Int16 => 4 | Int32 => 5 | Int64 => 6
  | Uint => 7 | Uint8 => 8 | Uint16 => 9 | Uint32 => 10 | Uint64 => 11
  | Uintptr => 12
  | Float32 => 13 | Float64 => 14 | Complex64 => 15 | Complex128 => 16
  | Array => 17 | Chan => 18 | Func => 19 | Interface => 20 | Map => 21
  | Ptr => 22 | Slice => 23 | String => 24 | Struct => 25
  | UnsafePointer => 26
  end.

End reflect.

(** ** pogo: the list of target languages and the packages of a program *)

Module pogo.

(** The static part of a [LanguageEntry]; of the [Language] it embeds only
    the name is read here. *)
Record LanguageEntry : Type := {
  LanguageName : string;
  InstructionLimit : Z;
  SubFnInstructionLimit : Z;
  PackageConstVarName : string;
  HeaderConstVarName : string;
  Goruntime : string
}.

(** The loop of [FindTargetLang] from index [k] on.  The result is the
    index and the error, [None] for nil. *)
Fixpoint findFrom (k : Z) (LanguageList : list LanguageEntry) (s : string)
    : Z * option string :=
  match LanguageList with
  | [] => (-1, Some ("Target Language Not Found: " +:+ s))
  | v :: rest =>
      if String.eqb (LanguageName v) s then (k, None)
      else findFrom (k + 1) rest s
  end.

Definition FindTargetLang (LanguageList : list LanguageEntry) (s : string)
    : Z * option string :=
  findFrom 0 LanguageList s.

(** [ap] holds the names of the packages of [rootProgram.AllPackages()]. *)
Fixpoint pnCount (ap : list string) (pn : string) : Z :=
  match ap with
  | [] => 0
  | n :: rest =>
      if String.eqb pn n then 1 + pnCount rest pn else pnCount rest pn
  end.

Definition isDupPkg (ap : list string) (pn : string) : bool :=
  1 <? pnCount ap pn.

End pogo.

(** ** Predicates on names *)

(** The byte [c] occurs in [s]. *)
Fixpoint hasChar (c : ascii) (s : string) : bool :=
  match s with
  | EmptyString => false
  | String a r => Ascii.eqb a c || hasChar c r
  end.

(** [s], read as the body of a string constant, in which a backslash
    escapes the byte after it, holds no double quote that is not escaped;
    [escaped] tells whether the first byte of [s] is escaped. *)
Fixpoint quotesEscaped (escaped : bool) (s : string) : bool :=
  match s with
  | EmptyString => true
  | String c r =>
      if escaped then quotesEscaped false r
      else if Ascii.eqb c (ascii_of_nat 34) then false
      else quotesEscaped (Ascii.eqb c "\"%char) r
  end.

Definition startsWith (c : ascii) (s : string) : bool :=
  match s with
  | EmptyString => false
  | String a _ => Ascii.eqb a c
  end.

Fixpoint endsWith (c : ascii) (s : string) : bool :=
  match s with
  | EmptyString => false
  | String a EmptyString => Ascii.eqb a c
  | String a r => endsWith c r
  end.

(** The kinds of typed values: every kind but the invalid one and those of
    untyped constants. *)
Definition typedKind (k : types.BasicKind) : bool :=
  match k with
  | types.Invalid | types.UntypedBool | types.UntypedInt | types.UntypedRune
  | types.UntypedFloat | types.UntypedComplex | types.UntypedString
  | types.UntypedNil => false
  | _ => true
  end.

Definition isNamed (t : types.type) : bool :=
  match t with
  | types.Named _ => true
  | _ => false
  end.

Definition isInterface (t : types.type) : bool :=
  match t with
  | types.Interface => true
  | _ => false
  end.

(** ** A small program to run the definitions on *)

(** A list node that points to itself, a named pointer to it, a named
    slice of bytes, a map type whose elements are maps of the same type,
    and stand-ins for the code outside this file. *)
Module Sample.

Definition IsValidInPogo (t : types.type) (errorInfo : string) : bool := true.

Definition declared (obj : string) : types.type :=
  if String.eqb obj "main.Node"
  then types.Struct [("val", types.Basic types.Int);
                     ("next", types.Pointer (types.Named "main.Node"))]
  else if String.eqb obj "main.NodePtr"
  then types.Pointer (types.Named "main.Node")
  else if String.eqb obj "main.Blob"
  then types.Slice (types.Basic types.Byte)
  else if String.eqb obj "main.Tree"
  then types.Map (types.Basic types.String) (types.Named "main.Tree")
  else types.Basic types.Int.

(** [main.f.T] and [main.g.T] stand for the types [T] declared inside the
    functions [f] and [g] of package main: two types, both written
    [main.T]. *)
Definition TypeString (t : types.type) : string :=
  match t with
  | types.Named obj =>
      if String.eqb obj "main.f.T" || String.eqb obj "main.g.T"
      then "main.T" else obj
  | types.Pointer (types.Named obj) => "*" +:+ obj
  | types.Interface => "interface{}"
  | types.Basic types.Int8 => "int8"
  | types.Basic types.Int32 => "int32"
  | _ => "T"
  end.

Definition Sizeof (t : types.type) : Z := 8.
Definition arrayOffsetCalc (t : types.type) : string := EmptyString.
Definition MakeID (s : string) : string := s.

Definition IndirectValue (v : ssa.Value) (errorInfo : string) : string :=
  match v with
  | ssa.Fn f => ssa.Name f
  | ssa.Val id _ => id
  end.

Definition intTypeCoersion (t : types.type) (v errorInfo : string) : string :=
  "Force.toInt8(" +:+ v +:+ ")".

Definition LangName (p o : string) : string := p +:+ "_" +:+ o.

(** The Go literal between back quotes, as a Haxe string constant. *)
Definition haxeStringConst (lit errorInfo : string) : string :=
  match lit with
  | EmptyString => EmptyString
  | String _ r => dquote +:+ dropLast r +:+ dquote
  end.

(** The registry as the next free ID alone. *)
Definition LogTypeUse (t : types.type) (next : Z) : string * Z :=
  (pretty next, next + 1).

Definition Identical (X Y : types.type) : bool :=
  String.eqb (TypeString X) (TypeString Y).

Definition AssignableTo (X Y : types.type) : bool :=
  Identical X Y || match Y with types.Interface => true | _ => false end.

Definition x32 : ssa.Value := ssa.Val "x" (types.Basic types.Int32).
Definition x64 : ssa.Value := ssa.Val "x" (types.Basic types.Int64).
Definition f32 : ssa.Value := ssa.Val "f" (types.Basic types.Float32).
Definition f64 : ssa.Value := ssa.Val "f" (types.Basic types.Float64).
Definition str : ssa.Value := ssa.Val "s" (types.Basic types.String).
Definition blob : ssa.Value := ssa.Val "b" (types.Named "main.Blob").
Definition flag : ssa.Value := ssa.Val "ok" (types.Basic types.Bool).
Definition ptr : ssa.Value := ssa.Val "p" (types.Basic types.UnsafePointer).
Definition boxed : ssa.Value := ssa.Val "i" types.Interface.

Definition registry : list (types.type * Z) :=
  [(types.Basic types.Int8, 1); (types.Named "main.f.T", 2);
   (types.Interface, 3); (types.Named "main.g.T", 4)].

Definition ObjName (obj : string) : string :=
  List.last (strings.Split "."%char obj) EmptyString.

Definition Alignof (t : types.type) : Z := 4.

Definition LanguageList : list pogo.LanguageEntry :=
  [ {| pogo.LanguageName := "haxe"; pogo.InstructionLimit := 512;
       pogo.SubFnInstructionLimit := 256;
       pogo.PackageConstVarName := "tardisgoHaxePackage";
       pogo.HeaderConstVarName := "tardisgoHaxeHeader";
       pogo.Goruntime := "haxe/goruntime" |};
    {| pogo.LanguageName := "js"; pogo.InstructionLimit := 1024;
       pogo.SubFnInstructionLimit := 512;
       pogo.PackageConstVarName := "tardisgoJsPackage";
       pogo.HeaderConstVarName := "tardisgoJsHeader";
       pogo.Goruntime := "js/goruntime" |};
    {| pogo.LanguageName := "haxe"; pogo.InstructionLimit := 64;
       pogo.SubFnInstructionLimit := 32;
       pogo.PackageConstVarName := EmptyString;
       pogo.HeaderConstVarName := EmptyString;
       pogo.Goruntime := EmptyString |} ].

End Sample.

(** ** LangType *)

Section Haxe.

(** Code of the pogo and haxe packages that lies outside this file, and the
    queries of go/types: the validity gate of pogo, the declaration a named
    type refers to, [t.String()], [haxeStdSizes.Sizeof], [arrayOffsetCalc],
    [pogo.MakeID], [l.IndirectValue], [l.intTypeCoersion], [l.LangName]
    and [haxeStringConst]. *)
Variable IsValidInPogo : types.type -> string -> bool.
Variable declared : string -> types.type.
Variable TypeString : types.type -> string.
Variable Sizeof : types.type -> Z.
Variable arrayOffsetCalc : types.type -> string.
Variable MakeID : string -> string.
Variable IndirectValue : ssa.Value -> string -> string.
Variable intTypeCoersion : types.type -> string -> string -> string.
Variable LangName : string -> string -> string.
Variable haxeStringConst : string -> string -> string.

(** [t.Underlying()]: the declared type of a named type, the type itself
    otherwise. *)
Definition Underlying (t : types.type) : types.type :=
  match t with
  | types.Named obj => declared obj
  | _ => t
  end.

#[local] Arguments Underlying : simpl never.

(** The loop of the [default] case for tuples, over the elements from
    index [ele] on; [lower] is the recursive call. *)
Fixpoint tupleFields (lower : types.type -> res string)
    (ele : Z) (vars : list types.type) (ret : string) : res string :=
  match vars with
  | [] => mret ret
  | t :: rest =>
      let ret := if ele =? 0 then ret else ret +:+ "," in
      s ← lower (Underlying t);
      tupleFields lower (ele + 1) rest
        (ret +:+ MakeID ("r" +:+ pretty ele) +:+ ":" +:+ s)
  end.

Definition basicLangType (k : types.BasicKind) (retInitVal : bool)
    (errorInfo : string) : res string :=
  match k with
  | types.Bool | types.UntypedBool =>
      if retInitVal then mret "false" else mret "Bool"
  | types.String | types.UntypedString =>
      if retInitVal then mret (dquote +:+ dquote) else mret "String"
  | types.Float64 | types.Float32 | types.UntypedFloat =>
      if retInitVal then mret "0.0" else mret "Float"
  | types.Complex64 | types.Complex128 | types.UntypedComplex =>
      if retInitVal then mret "new Complex(0.0,0.0)" else mret "Complex"
  | types.Int | types.Int8 | types.Int16 | types.Int32 | types.UntypedRune
  | types.Uint8 | types.Uint16 | types.Uint | types.Uint32 =>
      if retInitVal then mret "0" else mret "Int"
  | types.Int64 | types.Uint64 =>
      if retInitVal then mret "GOint64.make(0,0)" else mret "GOint64"
  | types.UntypedInt =>
      LogWarning errorInfo "Haxe"
        "haxe.LangType() types.UntypedInt is ambiguous";;
      mret "UNTYPED_INT"
  | types.UnsafePointer =>
      LogWarning errorInfo "Haxe" "Unsafe Pointer";;
      if retInitVal then mret "null" else mret "Pointer"
  | types.Uintptr =>
      if retInitVal then mret "null" else mret "Dynamic"
  | types.Invalid | types.UntypedNil =>
      LogWarning errorInfo "Haxe"
        "haxe.LangType() unrecognised basic type, Dynamic assumed";;
      if retInitVal then mret "null" else mret "Dynamic"
  end.

Fixpoint LangType (fuel : nat) (t : types.type) (retInitVal : bool)
    (errorInfo : string) : res string :=
  match fuel with
  | O => OutOfFuel
  | S fuel =>
      if IsValidInPogo t errorInfo then
        match t with
        | types.Basic k => basicLangType k retInitVal errorInfo
        | types.Interface =>
            if retInitVal then mret "null" else mret "Interface"
        | types.Named _ =>
            haxeName ← getHaxeClass (TypeString t);
            if negb (String.eqb haxeName EmptyString) then
              if retInitVal then mret "null" else mret haxeName
            else LangType fuel (Underlying t) retInitVal errorInfo
        | types.Chan elem =>
            if retInitVal then
              e ← LangType fuel elem false errorInfo;
              mret ("new Channel<" +:+ e +:+ ">(1)")
            else
              e ← LangType fuel elem false errorInfo;
              mret ("Channel<" +:+ e +:+ ">")
        | types.Map key elem =>
            if retInitVal then
              k ← LangType fuel key true errorInfo;
              e ← LangType fuel elem true errorInfo;
              mret ("new GOmap(" +:+ k +:+ "," +:+ e +:+ ")")
            else mret "GOmap"
        | types.Slice elem =>
            if retInitVal then
              mret ("new Slice(new Pointer(" +:+ "new Object(0)" +:+
                    "),0,0,0," +:+ "1" +:+
                    arrayOffsetCalc (Underlying elem) +:+ ")")
            else mret "Slice"
        | types.Array _ _ =>
            if retInitVal
            then mret ("new Object(" +:+ pretty (Sizeof t) +:+ ")")
            else mret "Object"
        | types.Struct _ =>
            if retInitVal
            then mret ("new Object(" +:+ pretty (Sizeof (Underlying t)) +:+ ")")
            else mret "Object"
        | types.Tuple vars =>
            match vars with
            | [] => mret EmptyString
            | [t0] => LangType fuel (Underlying t0) retInitVal errorInfo
            | _ =>
                ret ← tupleFields
                        (fun u => LangType fuel u retInitVal errorInfo)
                        0 vars "{";
                mret (ret +:+ "}")
            end
        | types.Pointer _ =>
            if retInitVal then mret "null" else mret "Pointer"
        | types.Signature _ _ =>
            if retInitVal then mret "null" else mret "Closure"
        | types.Other rTyp =>
            if String.eqb rTyp "*ssa.opaqueType" then
              if retInitVal then mret "null" else mret "Dynamic"
            else
              LogError errorInfo "Haxe"
                ("haxe.LangType() internal error, unhandled non-basic type: "
                 +:+ rTyp);;
              mret "UNKNOWN_LANGTYPE"
        end
      else mret "UNKNOWN_LANGTYPE"
  end.

(** ** Convert *)

(** The type assertions to a slice type and to a basic type: a type of
    another variant panics. *)
Definition sliceElem (t : types.type) : res types.type :=
  match t with
  | types.Slice e => mret e
  | _ => Panic
  end.

Definition basicKind (t : types.type) : res types.BasicKind :=
  match t with
  | types.Basic k => mret k
  | _ => Panic
  end.

(** The statement that decodes the runes of the raw slice [call] yields
    into [register]. *)
Definition fromRunes (register call : string) : string :=
  "{var _r:Slice=" +:+ call +:+ ";" +:+
  register +:+ "=" +:+ dquote +:+ dquote +:+ ";for(_i in 0..._r.len())" +:+
  register +:+ "+=String.fromCharCode(_r.itemAddr(_i).load_int32(" +:+ "));};".

Definition Convert (fuel : nat) (register langType : string)
    (destType : types.type) (v : ssa.Value) (errorInfo : string)
    : res string :=
  srcTyp ← LangType fuel (Underlying (ssa.TypeOf v)) false errorInfo;
  if String.eqb srcTyp langType && negb (String.eqb langType "Float") then
    mret (register +:+ "=" +:+ IndirectValue v errorInfo +:+ ";")
  else if String.eqb langType "Dynamic" then
    let vInt := IndirectValue v errorInfo in
    let vInt := if String.eqb srcTyp "GOint64"
                then "GOint64.toInt(" +:+ vInt +:+ ")" else vInt in
    mret (register +:+ "=" +:+ vInt +:+ ";")
  else if String.eqb langType "String" then
    if String.eqb srcTyp "Slice" then
      e ← sliceElem (Underlying (ssa.TypeOf v));
      k ← basicKind (Underlying e);
      match k with
      | types.Int32 =>
          mret (fromRunes register
                  ("Go_haxegoruntime_RRunes2RRaw.callFromRT(this._goroutine,"
                   +:+ IndirectValue v errorInfo +:+ ")"))
      | types.Uint8 =>
          mret (register +:+ "=Force.toRawString(this._goroutine," +:+
                IndirectValue v errorInfo +:+ ");")
      | _ =>
          LogError errorInfo "Haxe"
            "haxe.Convert() - Unexpected slice type to convert to String";;
          mret EmptyString
      end
    else if String.eqb srcTyp "Int" then
      mret (fromRunes register
              ("Go_haxegoruntime_RRune2RRaw.callFromRT(this._goroutine," +:+
               IndirectValue v errorInfo +:+ ")"))
    else if String.eqb srcTyp "GOint64" then
      mret (fromRunes register
              ("Go_haxegoruntime_RRune2RRaw.callFromRT(this._goroutine," +:+
               "GOint64.toInt(" +:+ IndirectValue v errorInfo +:+ "))"))
    else if String.eqb srcTyp "Dynamic" then
      mret (register +:+ "=cast(" +:+ IndirectValue v errorInfo +:+
            ",String);")
    else
      LogError errorInfo "Haxe"
        ("haxe.Convert() - Unexpected type to convert to String: " +:+
         srcTyp);;
      mret EmptyString
  else if String.eqb langType "Slice" then
    if negb (String.eqb srcTyp "String") then
      LogError errorInfo "Haxe"
        ("haxe.Convert() - Unexpected type to convert to " +:+ langType +:+
         " ([]rune or []byte): " +:+ srcTyp);;
      mret EmptyString
    else
      e ← sliceElem (Underlying destType);
      k ← basicKind (Underlying e);
      match k with
      | types.Int32 =>
          mret (register +:+
                "=Go_haxegoruntime_UUTTFF8toRRunes.callFromRT(this._goroutine,Force.toUTF8slice(this._goroutine,"
                +:+ IndirectValue v errorInfo +:+ "));")
      | types.Uint8 =>
          mret (register +:+ "=Force.toUTF8slice(this._goroutine," +:+
                IndirectValue v errorInfo +:+ ");")
      | _ =>
          LogError errorInfo "Haxe"
            ("haxe.Convert() - Unexpected slice elementto convert to " +:+
             langType +:+ " ([]rune/[]byte): " +:+ srcTyp);;
          mret EmptyString
      end
  else if String.eqb langType "Int" then
    let vInt :=
      if String.eqb srcTyp "GOint64" then
        "GOint64.toInt(" +:+ IndirectValue v errorInfo +:+ ")"
      else if String.eqb srcTyp "Float" then
        "{var _f:Float=" +:+ IndirectValue v errorInfo +:+
        ";_f>=0?Math.floor(_f):Math.ceil(_f);}"
      else
        "cast(" +:+ IndirectValue v errorInfo +:+ "," +:+ langType +:+ ")" in
    mret (register +:+ "=" +:+ intTypeCoersion destType vInt errorInfo +:+ ";")
  else if String.eqb langType "GOint64" then
    if String.eqb srcTyp "Int" then
      mret (register +:+ "=GOint64.ofInt(" +:+ IndirectValue v errorInfo +:+
            ");")
    else if String.eqb srcTyp "Float" then
      k ← basicKind (Underlying destType);
      if types.IsUnsigned k then
        mret (register +:+ "=GOint64.ofUFloat(" +:+
              IndirectValue v errorInfo +:+ ");")
      else
        mret (register +:+ "=GOint64.ofFloat(" +:+
              IndirectValue v errorInfo +:+ ");")
    else if String.eqb srcTyp "Dynamic" then
      mret (register +:+ "=" +:+ IndirectValue v errorInfo +:+ ";")
    else
      mret (register +:+ "=cast(" +:+ IndirectValue v errorInfo +:+ "," +:+
            langType +:+ ");")
  else if String.eqb langType "Float" then
    if String.eqb srcTyp "GOint64" then
      k ← basicKind (Underlying (ssa.TypeOf v));
      if types.IsUnsigned k then
        mret (register +:+ "=GOint64.toUFloat(" +:+
              IndirectValue v errorInfo +:+ ");")
      else
        mret (register +:+ "=GOint64.toFloat(" +:+
              IndirectValue v errorInfo +:+ ");")
    else if String.eqb srcTyp "Int" then
      k ← basicKind (Underlying (ssa.TypeOf v));
      if types.IsUnsigned k then
        mret (register +:+ "=GOint64.toUFloat(GOint64.make(0," +:+
              IndirectValue v errorInfo +:+ "));")
      else
        mret (register +:+ "=" +:+ IndirectValue v errorInfo +:+ ";")
    else if String.eqb srcTyp "Float" then
      k ← basicKind (Underlying (ssa.TypeOf v));
      narrowing ←
        match k with
        | types.Float64 =>
            kd ← basicKind (Underlying destType);
            mret (match kd with types.Float32 => true | _ => false end)
        | _ => mret false
        end;
      if narrowing : bool then
        mret (register +:+ "=Force.toFloat32(" +:+
              IndirectValue v errorInfo +:+ ");")
      else
        mret (register +:+ "=" +:+ IndirectValue v errorInfo +:+ ";")
    else
      mret (register +:+ "=cast(" +:+ IndirectValue v errorInfo +:+ "," +:+
            langType +:+ ");")
  else if String.eqb langType "UnsafePointer" then
    LogWarning errorInfo "Haxe" "converting a pointer to an Unsafe Pointer";;
    mret (register +:+ "=" +:+ IndirectValue v errorInfo +:+ ";")
  else
    if strings.HasPrefix srcTyp "Array<" then
      LogError errorInfo "Haxe"
        ("haxe.Convert() - No way to convert to " +:+ langType +:+
         " from " +:+ srcTyp +:+ " ");;
      mret EmptyString
    else
      mret (register +:+ "=cast(" +:+ IndirectValue v errorInfo +:+ "," +:+
            langType +:+ ");").

(** The float64 to float32 narrowing that the [Float] case tests for. *)
Definition narrowsFloat (k : types.BasicKind) (dest : types.type) : bool :=
  match k, dest with
  | types.Float64, types.Basic types.Float32 => true
  | _, _ => false
  end.

(** What C4 asks of the code written for a destination [Int]: an
    assignment of the destination type's coercion of some expression. *)
Definition coerced (register : string) (destType : types.type)
    (errorInfo out : string) : Prop :=
  exists vInt,
    out = register +:+ "=" +:+ intTypeCoersion destType vInt errorInfo +:+ ";".

(** ** ChangeType *)

Definition ChangeType (fuel : nat) (register : string)
    (regTyp : types.type) (v : ssa.Value) (errorInfo : string)
    : res string :=
  match v with
  | ssa.Fn f =>
      let pf :=
        match ssa.Recv f with
        | Some rx => TypeString rx
        | None =>
            match ssa.Pkg f with
            | Some name => name
            | None => EmptyString
            end
        end in
      mret (register +:+ "=" +:+
            "new Closure(Go_" +:+ LangName pf (ssa.Name f) +:+ ".call,[]);")
  | ssa.Val _ _ =>
      hType ← getHaxeClass (TypeString regTyp);
      if negb (String.eqb hType EmptyString) then
        match Underlying (ssa.TypeOf v) with
        | types.Interface =>
            mret (register +:+ "=" +:+ IndirectValue v errorInfo +:+ ".val;")
        | _ =>
            mret (register +:+ "=cast " +:+ IndirectValue v errorInfo +:+ ";")
        end
      else
        match Underlying (ssa.TypeOf v) with
        | types.Basic types.UnsafePointer =>
            z ← LangType fuel regTyp true errorInfo;
            mret (register +:+ "=" +:+ z +:+ ";")
        | _ =>
            mret (register +:+ "=" +:+ IndirectValue v errorInfo +:+ ";")
        end
  end.

(** ** TypeAssert *)

(** [pogo.LogTypeUse] records the type in the registry of pogo and returns
    its ID as text; the registry is threaded explicitly. *)
Variable Registry : Type.
Variable LogTypeUse : types.type -> Registry -> string * Registry.

Definition TypeAssert (register : string) (v : ssa.Value)
    (AssertedType : types.type) (CommaOk : bool) (errorInfo : string)
    (reg : Registry) : string * Registry :=
  if String.eqb register EmptyString then (EmptyString, reg)
  else if CommaOk then
    let '(id, reg) := LogTypeUse AssertedType reg in
    (register +:+ "=Interface.assertOk(" +:+ id +:+ "," +:+
     IndirectValue v errorInfo +:+ ");", reg)
  else
    let '(id, reg) := LogTypeUse AssertedType reg in
    (register +:+ "=Interface.assert(" +:+ id +:+ "," +:+
     IndirectValue v errorInfo +:+ ");", reg).

(** ** loadStoreSuffix *)

(** [types.TypeString(nil, T)] is [T.String()]. *)
Definition loadStoreSuffix (T : types.type) (hasParameters : bool) : string :=
  match Underlying T with
  | types.Basic k =>
      match k with
      | types.Bool | types.Int8 | types.Int16 | types.Int64 | types.Uint16
      | types.Uint64 | types.Uintptr | types.Float32 | types.Float64
      | types.Complex64 | types.Complex128 | types.String =>
          "_" +:+ TypeString T +:+ "("
      | types.Uint8 => "_uint8("
      | types.Int | types.Int32 => "_int32("
      | types.Uint | types.Uint32 => "_uint32("
      | _ => "("
      end
  | types.Array _ _ | types.Struct _ =>
      "_object(" +:+ pretty (Sizeof T) +:+
      (if hasParameters then "," else EmptyString)
  | _ => "("
  end.

(** ** EmitTypeInfo: the name table and the two relation tables *)

(** [pogo.TypesEncountered], as the emitter reads it: the keys in the order
    of [Keys()], each with the ID that [At] returns for it. *)
Variable AssignableTo : types.type -> types.type -> bool.
Variable Identical : types.type -> types.type -> bool.

(** The name under which a type enters the table [typIDs]. *)
Definition typIDName (key : types.type) : string :=
  haxeStringConst ("`" +:+ preprocessTypeName (TypeString key) +:+ "`")
    "CompilerInternal:haxe.EmitTypeInfo()".

(** The name of a later type of the same name. *)
Definition duplicateName (nam : string) (v : Z) : string :=
  dropLast nam +:+ " (duplicate type name! this id=" +:+ pretty v +:+ ")" +:+
  dquote.

(** The entries of the map literal [typIDs], in the order they are
    written; [deDup] holds the names written so far. *)
Fixpoint typIDs (deDup : gmap string bool) (pte : list (types.type * Z))
    : list (string * Z) :=
  match pte with
  | [] => []
  | (key, v) :: rest =>
      let nam := typIDName key in
      if negb (Nat.eqb (String.length nam) 0) then
        if default false (deDup !! nam)
        then (duplicateName nam v, v) :: typIDs deDup rest
        else (nam, v) :: typIDs (<[nam := true]> deDup) rest
      else typIDs deDup rest
  end.

(** The names in [deDup] once the loop has gone through [pte]. *)
Fixpoint deDupAfter (deDup : gmap string bool) (pte : list (types.type * Z))
    : gmap string bool :=
  match pte with
  | [] => deDup
  | (key, v) :: rest =>
      let nam := typIDName key in
      if negb (Nat.eqb (String.length nam) 0) then
        if default false (deDup !! nam)
        then deDupAfter deDup rest
        else deDupAfter (<[nam := true]> deDup) rest
      else deDupAfter deDup rest
  end.

Definition emitTypIDs (pte : list (types.type * Z)) : string :=
  "static var typIDs:Map<String,Int> = [" +:+
  String.concat EmptyString
    (map (fun e => " " +:+ e.1 +:+ " => " +:+ pretty e.2 +:+ "," +:+ nl)
       (typIDs ∅ pte)) +:+
  "];" +:+ nl.

(** The cases written for a relation of go/types: for every key [V] an
    outer case on its ID and, inside, a case for the ID of every key [T]
    of another ID that [V] is related to. *)
Definition relationCases (rel : types.type -> types.type -> bool)
    (pte : list (types.type * Z)) : list (Z * list Z) :=
  map (fun V =>
         (V.2,
          omap (fun T => if negb (V.2 =? T.2) && rel V.1 T.1
                         then Some T.2 else None) pte))
      pte.

Definition emitRelation (name : string) (cases : list (Z * list Z)) : string :=
  "public static function " +:+ name +:+ "(v:Int,t:Int):Bool {" +:+ nl +:+
  "if(v==t) return true;" +:+ nl +:+ "switch(v){" +:+ nl +:+
  String.concat EmptyString
    (map (fun c =>
            "case " +:+ pretty c.1 +:+ ": switch(t){" +:+ nl +:+
            String.concat EmptyString
              (map (fun t => "case " +:+ pretty t +:+ ": return true;" +:+ nl)
                 c.2) +:+
            "default: return false;}" +:+ nl)
       cases) +:+
  "default: return false;}}" +:+ nl.

Definition emitIsAssignableTo (pte : list (types.type * Z)) : string :=
  emitRelation "isAssignableTo" (relationCases AssignableTo pte).

Definition emitIsIdentical (pte : list (types.type * Z)) : string :=
  emitRelation "isIdentical" (relationCases Identical pte).

(** What the function written by [emitRelation] computes in Haxe: equal
    IDs are related; otherwise the first outer case for [v] decides, true
    when one of its inner cases is [t]. *)
Definition runRelation (cases : list (Z * list Z)) (v t : Z) : bool :=
  if v =? t then true
  else match List.find (fun c => c.1 =? v) cases with
       | Some c => existsb (fun t' => t' =? t) c.2
       | None => false
       end.

Definition isAssignableTo (pte : list (types.type * Z)) : Z -> Z -> bool :=
  runRelation (relationCases AssignableTo pte).

Definition isIdentical (pte : list (types.type * Z)) : Z -> Z -> bool :=
  runRelation (relationCases Identical pte).

(** ** MakeInterface and ChangeInterface *)

Definition MakeInterface (register : string) (regTyp : types.type)
    (v : ssa.Value) (errorInfo : string) (reg : Registry)
    : res (string * Registry) :=
  let '(id, reg) := LogTypeUse (ssa.TypeOf v) reg in
  let ret := "new Interface(" +:+ id +:+ "," +:+
             IndirectValue v errorInfo +:+ ")" in
  hType ← getHaxeClass (TypeString regTyp);
  let ret := if negb (String.eqb hType EmptyString)
             then "Force.toHaxeParam(" +:+ ret +:+ ")" else ret in
  mret (register +:+ "=" +:+ ret +:+ ";", reg).

Definition ChangeInterface (register : string) (regTyp : types.type)
    (v : ssa.Value) (errorInfo : string) (reg : Registry)
    : string * Registry :=
  let '(_, reg) := LogTypeUse regTyp reg in
  let '(id, reg) := LogTypeUse (ssa.TypeOf v) reg in
  (register +:+ "=Interface.change(" +:+ id +:+ "," +:+
   IndirectValue v errorInfo +:+ ");", reg).

(** ** getTypeInfo *)

(** [t.Obj().Name()] of a named type and [haxeStdSizes.Alignof]. *)
Variable ObjName : string -> string.
Variable Alignof : types.type -> Z.

(** The results are the field alignment, the kind and the name. *)
Fixpoint getTypeInfo (fuel : nat) (t : types.type) (tname : string)
    : res (Z * reflect.Kind * string) :=
  match fuel with
  | O => OutOfFuel
  | S fuel =>
      let fieldAlign := 0 in
      let name := if negb (String.eqb tname EmptyString)
                  then tname else EmptyString in
      match t with
      | types.Basic tb =>
          match tb with
          | types.Bool => mret (fieldAlign, reflect.Bool, name)
          | types.Int => mret (fieldAlign, reflect.Int, name)
          | types.Int8 => mret (fieldAlign, reflect.Int8, name)
          | types.Int16 => mret (fieldAlign, reflect.Int16, name)
          | types.Int32 => mret (fieldAlign, reflect.Int32, name)
          | types.Int64 => mret (fieldAlign, reflect.Int64, name)
          | types.Uint => mret (fieldAlign, reflect.Uint, name)
          | types.Uint8 => mret (fieldAlign, reflect.Uint8, name)
          | types.Uint16 => mret (fieldAlign, reflect.Uint16, name)
          | types.Uint32 => mret (fieldAlign, reflect.Uint32, name)
          | types.Uint64 => mret (fieldAlign, reflect.Uint64, name)
          | types.Uintptr => mret (fieldAlign, reflect.Uintptr, name)
          | types.Float32 => mret (fieldAlign, reflect.Float32, name)
          | types.Float64 => mret (fieldAlign, reflect.Float64, name)
          | types.Complex64 => mret (fieldAlign, reflect.Complex64, name)
          | types.Complex128 => mret (fieldAlign, reflect.Complex128, name)
          | types.UnsafePointer =>
              mret (fieldAlign, reflect.UnsafePointer, name)
          | types.String => mret (fieldAlign, reflect.String, name)
          | _ => Panic
          end
      | types.Array _ _ => mret (fieldAlign, reflect.Array, name)
      | types.Chan _ => mret (fieldAlign, reflect.Chan, name)
      | types.Signature _ _ => mret (fieldAlign, reflect.Func, name)
      | types.Interface => mret (fieldAlign, reflect.Interface, name)
      | types.Map _ _ => mret (fieldAlign, reflect.Map, name)
      | types.Pointer _ => mret (fieldAlign, reflect.Ptr, name)
      | types.Slice _ => mret (fieldAlign, reflect.Slice, name)
      | types.Struct _ => mret (fieldAlign, reflect.Struct, name)
      | types.Named obj =>
          let tname := if String.eqb tname EmptyString
                       then ObjName obj else tname in
          getTypeInfo fuel (Underlying t) tname
      | types.Tuple _ | types.Other _ => Panic
      end
  end.

(** ** EmitTypeInfo: the table by ID, isConcrete and zeroValue *)

Definition tab : string := String (ascii_of_nat 9) EmptyString.

(** The loop that fills [typesByID]; an index outside the slice panics. *)
Fixpoint fillTypesByID (pte : list (types.type * Z))
    (typesByID : list (option types.type)) : res (list (option types.type)) :=
  match pte with
  | [] => mret typesByID
  | (key, v) :: rest =>
      if (0 <=? v) && (v <? Z.of_nat (length typesByID))
      then fillTypesByID rest (<[Z.to_nat v := Some key]> typesByID)
      else Panic
  end.

(** [make] panics on a negative length. *)
Definition typesByID (NextTypeID : Z) (pte : list (types.type * Z))
    : res (list (option types.type)) :=
  if NextTypeID <? 0 then Panic
  else fillTypesByID pte (replicate (Z.to_nat NextTypeID) None).

(** The record written for one element of [typesByID]. *)
Definition emitTypeEntry (fuel : nat) (t : option types.type) : res string :=
  match t with
  | None =>
      mret ("{" +:+ nl +:+
            tab +:+ "isValid: false," +:+ nl +:+
            tab +:+ "size: " +:+ pretty 0 +:+ "," +:+ nl +:+
            tab +:+ "align: " +:+ pretty 0 +:+ "," +:+ nl +:+
            tab +:+ "fieldAlign: " +:+ pretty 0 +:+ "," +:+ nl +:+
            tab +:+ "kind: " +:+ pretty 0 +:+ "," +:+ nl +:+
            tab +:+ "stringForm: " +:+ dquote +:+ dquote +:+ "," +:+ nl +:+
            tab +:+ "name: " +:+ dquote +:+ dquote +:+ "," +:+ nl +:+
            "}," +:+ nl)
  | Some t =>
      info ← getTypeInfo fuel t EmptyString;
      let '(fieldAlign, kind, name) := info in
      mret ("{" +:+ nl +:+
            tab +:+ "isValid: true," +:+ nl +:+
            tab +:+ "size: " +:+ pretty (Sizeof t) +:+ "," +:+ nl +:+
            tab +:+ "align: " +:+ pretty (Alignof t) +:+ "," +:+ nl +:+
            tab +:+ "fieldAlign: " +:+ pretty fieldAlign +:+ "," +:+ nl +:+
            tab +:+ "kind: " +:+ pretty (reflect.code kind) +:+ "," +:+ nl +:+
            tab +:+ "stringForm: " +:+
              haxeStringConst
                (dquote +:+ preprocessTypeName (TypeString t) +:+ dquote)
                "CompilerInternal:haxe.EmitTypeInfo()" +:+ "," +:+ nl +:+
            tab +:+ "name: " +:+
              haxeStringConst (dquote +:+ name +:+ dquote)
                "CompilerInternal:haxe.EmitTypeInfo()" +:+ "," +:+ nl +:+
            "}," +:+ nl)
  end.

(** The cases of [isConcrete]: the ID of every key, with false when the
    underlying type is an interface. *)
Definition isConcreteCases (pte : list (types.type * Z)) : list (Z * bool) :=
  map (fun T => (T.2, negb (isInterface (Underlying T.1)))) pte.

Definition emitIsConcrete (pte : list (types.type * Z)) : string :=
  "public static function isConcrete(t:Int):Bool {" +:+ nl +:+
  "switch(t){" +:+ nl +:+
  String.concat EmptyString
    (map (fun c : Z * bool =>
            "case " +:+ pretty c.1 +:+ ": return " +:+
            (if c.2 then "true" else "false") +:+ ";" +:+ nl)
       (isConcreteCases pte)) +:+
  "default: return false;}}" +:+ nl.

(** What the function written computes: the first case for [t] decides. *)
Definition isConcrete (pte : list (types.type * Z)) (t : Z) : bool :=
  match List.find (fun c : Z * bool => c.1 =? t) (isConcreteCases pte) with
  | Some c => c.2
  | None => false
  end.

(** The cases of [zeroValue]: the ID of every key with the zero value of
    its type, [null] when [LangType] gives no text. *)
Fixpoint zeroValueCases (fuel : nat) (pte : list (types.type * Z))
    : res (list (Z * string)) :=
  match pte with
  | [] => mret []
  | T :: rest =>
      z ← LangType fuel T.1 true "EmitTypeInfo()";
      let z := if String.eqb z EmptyString then "null" else z in
      cases ← zeroValueCases fuel rest;
      mret ((T.2, z) :: cases)
  end.

Definition emitZeroValue (fuel : nat) (pte : list (types.type * Z))
    : res string :=
  cases ← zeroValueCases fuel pte;
  mret ("public static function zeroValue(t:Int):Dynamic {" +:+ nl +:+
        "switch(t){" +:+ nl +:+
        String.concat EmptyString
          (map (fun c : Z * string =>
                  "case " +:+ pretty c.1 +:+ ": return " +:+ c.2 +:+ ";" +:+ nl)
             cases) +:+
        "default: return null;}}" +:+ nl).

(** ** fixKeyWds, TypeStart and TypeEnd *)

Definition fixKeyWds (w : string) : string :=
  if String.eqb w "new" then w +:+ "_" else w.

Definition TypeStart (nt : types.type) (err : string) : string := EmptyString.
Definition TypeEnd (nt : types.type) (err : string) : string := EmptyString.

(** ** Properties of LangType *)

Lemma length_app (s1 s2 : string) :
  String.length (s1 +:+ s2) = (String.length s1 + String.length s2)%nat.
Proof. induction s1 as [|c s1 IH]; simpl; [reflexivity | now rewrite IH]. Qed.

Lemma LangType_basic (fuel : nat) (k : types.BasicKind) (b : bool)
    (errorInfo : string) :
  IsValidInPogo (types.Basic k) errorInfo = true ->
  LangType (S fuel) (types.Basic k) b errorInfo = basicLangType k b errorInfo.
Proof. intros Hv. simpl. now rewrite Hv. Qed.

(** C1, as the code has it: every basic integer kind of at most 32 bits
    other than [uintptr] lowers to the native type [Int] with zero value
    [0]; [uintptr], which the source uses as an integer and as a container
    for a value of another type, lowers to [Dynamic] with zero value
    [null]; the two 64-bit kinds lower to the paired-word type [GOint64]
    with zero value [GOint64.make(0,0)]. *)
Theorem LangType_integer_kinds (fuel : nat) (k : types.BasicKind) (w : Z)
    (errorInfo : string) :
  IsValidInPogo (types.Basic k) errorInfo = true ->
  integerBits k = Some w ->
  (w <= 32 -> k <> types.Uintptr ->
   LangType (S fuel) (types.Basic k) false errorInfo = Done "Int" [] /\
   LangType (S fuel) (types.Basic k) true errorInfo = Done "0" []) /\
  (k = types.Uintptr ->
   w = 32 /\
   LangType (S fuel) (types.Basic k) false errorInfo = Done "Dynamic" [] /\
   LangType (S fuel) (types.Basic k) true errorInfo = Done "null" []) /\
  (w = 64 ->
   LangType (S fuel) (types.Basic k) false errorInfo = Done "GOint64" [] /\
   LangType (S fuel) (types.Basic k) true errorInfo
     = Done "GOint64.make(0,0)" []).
Proof.
  intros Hv Hw. rewrite !LangType_basic by exact Hv.
  destruct k; simpl in Hw; try discriminate;
    injection Hw as <-;
    (split; [intros Hle Hk | split; [intros Hk | intros He]]);
    try lia; try discriminate Hk; try congruence; repeat split.
Qed.

(** C2: the zero value of a pointer type is [null], found by the first
    call alone (a budget of one call is enough), whatever the pointed-to
    type and the declarations are, so a type that refers to itself through
    a pointer cannot make the synthesis run on. *)
Theorem LangType_pointer_zero_value (fuel : nat) (elem : types.type)
    (errorInfo : string) :
  IsValidInPogo (types.Pointer elem) errorInfo = true ->
  LangType (S fuel) (types.Pointer elem) true errorInfo = Done "null" [].
Proof. intros Hv. simpl. now rewrite Hv. Qed.

(** The zero value of a struct is an object of its size: the fields are
    not visited either. *)
Lemma LangType_struct_zero_value (fuel : nat)
    (fields : list (string * types.type)) (errorInfo : string) :
  IsValidInPogo (types.Struct fields) errorInfo = true ->
  LangType (S fuel) (types.Struct fields) true errorInfo
  = Done ("new Object(" +:+ pretty (Sizeof (types.Struct fields)) +:+ ")") [].
Proof. intros Hv. simpl. now rewrite Hv. Qed.

(** [int] and [uint] are read and written as 32-bit words. *)
Lemma loadStoreSuffix_int (T : types.type) (hasParameters : bool) :
  (Underlying T = types.Basic types.Int ->
   loadStoreSuffix T hasParameters = "_int32(") /\
  (Underlying T = types.Basic types.Uint ->
   loadStoreSuffix T hasParameters = "_uint32(").
Proof. split; intros H; unfold loadStoreSuffix; now rewrite H. Qed.

(** C6, as the code has it: among the basic kinds, a warning is logged for
    the untyped integer, the unsafe pointer and the unrecognised kinds and
    never an error; the warned result is a text that fails the Haxe
    compilation exactly for the untyped integer ([UNTYPED_INT]), the other
    warned kinds get the fallbacks [Pointer], [Dynamic] or [null]; a type
    outside the known variants logs an error and yields the failing text
    [UNKNOWN_LANGTYPE]. *)
Theorem LangType_diagnostics (fuel : nat) (b : bool) (errorInfo : string) :
  (forall k, IsValidInPogo (types.Basic k) errorInfo = true ->
     exists out log,
       LangType (S fuel) (types.Basic k) b errorInfo = Done out log /\
       hasError log = false /\
       hasWarning log = warnedKind k /\
       (hasWarning log = true ->
          (failsHaxeCompilation out = true <-> k = types.UntypedInt) /\
          (k <> types.UntypedInt ->
             out = "Pointer" \/ out = "Dynamic" \/ out = "null"))) /\
  (forall rTyp, IsValidInPogo (types.Other rTyp) errorInfo = true ->
     rTyp <> "*ssa.opaqueType" ->
     LangType (S fuel) (types.Other rTyp) b errorInfo
       = Done "UNKNOWN_LANGTYPE"
           [Diag Error errorInfo "Haxe"
              ("haxe.LangType() internal error, unhandled non-basic type: "
               +:+ rTyp)] /\
     failsHaxeCompilation "UNKNOWN_LANGTYPE" = true).
Proof.
  split.
  - intros k Hv. rewrite LangType_basic by exact Hv.
    destruct k, b; simpl; eexists _, _;
      (split; [reflexivity |]); simpl;
      (split; [reflexivity |]); (split; [reflexivity |]);
      intros Hw; try discriminate Hw;
      (split; [split; [intros H; try discriminate H; reflexivity
                      | intros H; try discriminate H; reflexivity]
              | intros Hk; try congruence; auto]).
  - intros rTyp Hv Hr. simpl. rewrite Hv.
    apply String.eqb_neq in Hr. rewrite Hr. split; reflexivity.
Qed.

(** ** Properties of Convert *)

Lemma bind_Done {A B : Type} (m : res A) (a : A) (log : list diag)
    (f : A -> res B) :
  m = Done a log ->
  m ≫= f = match f a with
           | Done b l' => Done b (log ++ l')
           | Panic => Panic
           | OutOfFuel => OutOfFuel
           end.
Proof. intros ->. reflexivity. Qed.

Lemma assignment_is_no_truncation (register x : string) :
  register +:+ "=Force.toFloat32(" +:+ x +:+ ");"
  <> register +:+ "=" +:+ x +:+ ";".
Proof.
  intros H. apply (inj (String.append register)) in H.
  apply (f_equal String.length) in H. simpl in H.
  rewrite !length_app in H. simpl in H. lia.
Qed.

(** C3: when the source value lowers to the destination's lowered type and
    that type is not [Float], the code is the plain assignment
    [register=value;]; when both are [Float], the code goes through
    [Force.toFloat32] for a float64 source and a float32 destination and is
    the plain assignment otherwise, and the two texts differ. *)
Theorem Convert_same_lowered_type (fuel : nat) (register langType : string)
    (destType : types.type) (v : ssa.Value) (errorInfo : string)
    (log : list diag) :
  LangType fuel (Underlying (ssa.TypeOf v)) false errorInfo
    = Done langType log ->
  (langType <> "Float" ->
   Convert fuel register langType destType v errorInfo
     = Done (register +:+ "=" +:+ IndirectValue v errorInfo +:+ ";") log) /\
  (langType = "Float" ->
   forall k, Underlying (ssa.TypeOf v) = types.Basic k ->
     (k = types.Float64 -> exists kd, Underlying destType = types.Basic kd) ->
     Convert fuel register langType destType v errorInfo
       = Done (if narrowsFloat k (Underlying destType)
               then register +:+ "=Force.toFloat32(" +:+
                    IndirectValue v errorInfo +:+ ");"
               else register +:+ "=" +:+ IndirectValue v errorInfo +:+ ";")
              log /\
     register +:+ "=Force.toFloat32(" +:+ IndirectValue v errorInfo +:+ ");"
       <> register +:+ "=" +:+ IndirectValue v errorInfo +:+ ";").
Proof.
  intros HL. split.
  - intros Hne. unfold Convert. rewrite (bind_Done _ _ _ _ HL).
    rewrite String.eqb_refl. apply String.eqb_neq in Hne. rewrite Hne.
    simpl. now rewrite app_nil_r.
  - intros -> k Hk Hd. split; [| apply assignment_is_no_truncation].
    unfold Convert. rewrite (bind_Done _ _ _ _ HL). rewrite Hk.
    destruct k; simpl; rewrite ?app_nil_r; try reflexivity.
    destruct (Hd eq_refl) as [kd ->].
    destruct kd; simpl; rewrite ?app_nil_r; reflexivity.
Qed.

(** X29: for a destination [Int] and a source whose lowered type is not
    [Int], a [Float] source is truncated toward zero ([Math.floor] from
    zero up, [Math.ceil] below), a [GOint64] source goes through
    [GOint64.toInt], any other source is cast, and in each of the three the
    coercion of the destination type is applied to the result before the
    assignment. *)
Theorem Convert_to_Int (fuel : nat) (register srcTyp : string)
    (destType : types.type) (v : ssa.Value) (errorInfo : string)
    (log : list diag) :
  LangType fuel (Underlying (ssa.TypeOf v)) false errorInfo
    = Done srcTyp log ->
  srcTyp <> "Int" ->
  exists vInt,
    Convert fuel register "Int" destType v errorInfo
      = Done (register +:+ "=" +:+
              intTypeCoersion destType vInt errorInfo +:+ ";") log /\
    (srcTyp = "Float" ->
     vInt = "{var _f:Float=" +:+ IndirectValue v errorInfo +:+
            ";_f>=0?Math.floor(_f):Math.ceil(_f);}") /\
    (srcTyp = "GOint64" ->
     vInt = "GOint64.toInt(" +:+ IndirectValue v errorInfo +:+ ")") /\
    (srcTyp <> "Float" -> srcTyp <> "GOint64" ->
     vInt = "cast(" +:+ IndirectValue v errorInfo +:+ ",Int)").
Proof.
  intros HL Hne. unfold Convert. rewrite (bind_Done _ _ _ _ HL).
  apply String.eqb_neq in Hne. rewrite Hne.
  destruct (String.eqb_spec srcTyp "GOint64") as [-> | HG];
    [| destruct (String.eqb_spec srcTyp "Float") as [-> | HF]];
    simpl; rewrite app_nil_r; eexists; (split; [reflexivity |]);
    repeat split; intros; try reflexivity; try congruence.
Qed.

(** C5, as the code has it: for a destination [Slice], a source whose
    lowered type is neither [String] nor [Slice] logs an error and yields
    no code; a source whose lowered type is [Slice] as well is assigned as
    it is, whatever the destination type; a string source goes through
    [Force.toUTF8slice], followed by the conversion from UTF-8 to runes
    when the destination is a slice of runes. *)
Theorem Convert_to_Slice (fuel : nat) (register srcTyp : string)
    (destType : types.type) (v : ssa.Value) (errorInfo : string)
    (log : list diag) :
  LangType fuel (Underlying (ssa.TypeOf v)) false errorInfo
    = Done srcTyp log ->
  (srcTyp <> "String" -> srcTyp <> "Slice" ->
   Convert fuel register "Slice" destType v errorInfo
     = Done EmptyString
         (log ++ [Diag Error errorInfo "Haxe"
                    ("haxe.Convert() - Unexpected type to convert to " +:+
                     "Slice" +:+ " ([]rune or []byte): " +:+ srcTyp)])) /\
  (srcTyp = "Slice" ->
   Convert fuel register "Slice" destType v errorInfo
     = Done (register +:+ "=" +:+ IndirectValue v errorInfo +:+ ";") log) /\
  (srcTyp = "String" ->
   forall elem, Underlying destType = types.Slice elem ->
     (Underlying elem = types.Basic types.Rune ->
      Convert fuel register "Slice" destType v errorInfo
        = Done (register +:+
                "=Go_haxegoruntime_UUTTFF8toRRunes.callFromRT(this._goroutine,Force.toUTF8slice(this._goroutine,"
                +:+ IndirectValue v errorInfo +:+ "));") log) /\
     (Underlying elem = types.Basic types.Byte ->
      Convert fuel register "Slice" destType v errorInfo
        = Done (register +:+ "=Force.toUTF8slice(this._goroutine," +:+
                IndirectValue v errorInfo +:+ ");") log)).
Proof.
  intros HL. split; [| split].
  - intros HS HSl. unfold Convert. rewrite (bind_Done _ _ _ _ HL).
    apply String.eqb_neq in HS, HSl. rewrite HSl. simpl. rewrite HS. simpl.
    reflexivity.
  - intros ->. unfold Convert. rewrite (bind_Done _ _ _ _ HL). simpl.
    now rewrite app_nil_r.
  - intros -> elem Hd. unfold Convert. rewrite (bind_Done _ _ _ _ HL).
    rewrite Hd.
    split; intros He; unfold sliceElem; simpl; rewrite He; simpl;
      rewrite app_nil_r; reflexivity.
Qed.

(** ** Properties of ChangeType and TypeAssert *)

(** C9: a value whose type is the unsafe pointer, changed to a type that
    is not mapped to a Haxe class, is not copied: the register is assigned
    the zero value that [LangType] gives for the destination type. *)
Theorem ChangeType_from_unsafe_pointer (fuel : nat) (register : string)
    (regTyp : types.type) (v : ssa.Value) (errorInfo : string) :
  Underlying (ssa.TypeOf v) = types.Basic types.UnsafePointer ->
  getHaxeClass (TypeString regTyp) = Done EmptyString [] ->
  match LangType fuel regTyp true errorInfo with
  | Done z log =>
      ChangeType fuel register regTyp v errorInfo
        = Done (register +:+ "=" +:+ z +:+ ";") log
  | Panic => ChangeType fuel register regTyp v errorInfo = Panic
  | OutOfFuel => ChangeType fuel register regTyp v errorInfo = OutOfFuel
  end.
Proof.
  intros Hu Hh. destruct v as [f | id typ]; [discriminate Hu |].
  unfold ChangeType. rewrite Hh, Hu. simpl.
  destruct (LangType fuel regTyp true errorInfo); simpl;
    rewrite ?app_nil_r; reflexivity.
Qed.

(** C10: with an empty register name no code is written and no type is
    recorded, whatever the other arguments are; otherwise the code is one
    call, of [Interface.assertOk] in the two-result form and of
    [Interface.assert] in the other, on the ID of the asserted type. *)
Theorem TypeAssert_code (register : string) (v : ssa.Value)
    (AssertedType : types.type) (CommaOk : bool) (errorInfo : string)
    (reg : Registry) :
  (register = EmptyString ->
   TypeAssert register v AssertedType CommaOk errorInfo reg
     = (EmptyString, reg)) /\
  (register <> EmptyString ->
   TypeAssert register v AssertedType CommaOk errorInfo reg
     = (register +:+
        (if CommaOk then "=Interface.assertOk(" else "=Interface.assert(")
        +:+ (LogTypeUse AssertedType reg).1 +:+ "," +:+
        IndirectValue v errorInfo +:+ ");",
        (LogTypeUse AssertedType reg).2)).
Proof.
  split.
  - intros ->. reflexivity.
  - intros Hne. unfold TypeAssert. apply String.eqb_neq in Hne. rewrite Hne.
    destruct (LogTypeUse AssertedType reg) as [id reg'].
    destruct CommaOk; reflexivity.
Qed.

(** ** Properties of the tables of EmitTypeInfo *)

Lemma typIDs_app (deDup : gmap string bool) (pre rest : list (types.type * Z)) :
  typIDs deDup (pre ++ rest)
  = typIDs deDup pre ++ typIDs (deDupAfter deDup pre) rest.
Proof.
  revert deDup. induction pre as [| [key v] pre IH]; intros deDup; simpl.
  - reflexivity.
  - destruct (negb (Nat.eqb (String.length (typIDName key)) 0)); [| apply IH].
    destruct (default false (deDup !! typIDName key)); simpl; now rewrite IH.
Qed.

Lemma deDupAfter_app (deDup : gmap string bool)
    (pre rest : list (types.type * Z)) :
  deDupAfter deDup (pre ++ rest) = deDupAfter (deDupAfter deDup pre) rest.
Proof.
  revert deDup. induction pre as [| [key v] pre IH]; intros deDup; simpl.
  - reflexivity.
  - destruct (negb (Nat.eqb (String.length (typIDName key)) 0)); [| apply IH].
    destruct (default false (deDup !! typIDName key)); apply IH.
Qed.

Lemma length_zero_empty (s : string) :
  Nat.eqb (String.length s) 0 = true <-> s = EmptyString.
Proof. destruct s; simpl; split; intros H; try reflexivity; discriminate. Qed.

Lemma deDupAfter_keeps (deDup : gmap string bool)
    (pte : list (types.type * Z)) (n : string) :
  default false (deDup !! n) = true ->
  default false (deDupAfter deDup pte !! n) = true.
Proof.
  revert deDup. induction pte as [| [key v] pte IH]; intros deDup H; simpl.
  - exact H.
  - destruct (negb (Nat.eqb (String.length (typIDName key)) 0)); [| now apply IH].
    destruct (default false (deDup !! typIDName key)); apply IH; [exact H |].
    destruct (decide (typIDName key = n)) as [-> | Hne].
    + now rewrite lookup_insert_eq.
    + now rewrite lookup_insert_ne.
Qed.

Lemma deDupAfter_fresh (deDup : gmap string bool)
    (pte : list (types.type * Z)) (n : string) :
  default false (deDup !! n) = false ->
  n ∉ map (fun e => typIDName e.1) pte ->
  default false (deDupAfter deDup pte !! n) = false.
Proof.
  revert deDup. induction pte as [| [key v] pte IH]; intros deDup H Hn; simpl.
  - exact H.
  - simpl in Hn. apply not_elem_of_cons in Hn as [Hne Hn].
    destruct (negb (Nat.eqb (String.length (typIDName key)) 0));
      [| now apply IH].
    destruct (default false (deDup !! typIDName key)); apply IH; trivial.
    now rewrite lookup_insert_ne.
Qed.

Lemma length_dropLast (s : string) :
  String.length (dropLast s) = Nat.pred (String.length s).
Proof.
  induction s as [| c s IH]; [reflexivity |].
  destruct s as [| c' s']; [reflexivity |].
  change (String.length (dropLast (String c (String c' s'))))
    with (S (String.length (dropLast (String c' s')))).
  rewrite IH. reflexivity.
Qed.

Lemma duplicateName_differs (nam : string) (v : Z) : duplicateName nam v <> nam.
Proof.
  intros H. apply (f_equal String.length) in H. unfold duplicateName in H.
  rewrite !length_app, length_dropLast in H. simpl in H. lia.
Qed.

(** C7: when a later type has the name of an earlier one, the entry of the
    earlier one, the first of that name, is written under the name itself
    with its ID, and the entry of the later one under the name marked as a
    duplicate, with the later type's own ID; the marked name is not the
    name, so the later entry does not take the place of the first. *)
Theorem typIDs_duplicate_names (pre mid post : list (types.type * Z))
    (A B : types.type) (a b : Z) (n : string) :
  typIDName A = n -> typIDName B = n -> n <> EmptyString ->
  n ∉ map (fun e => typIDName e.1) pre ->
  typIDs ∅ (pre ++ (A, a) :: mid ++ (B, b) :: post)
  = typIDs ∅ pre ++ (n, a) ::
    typIDs (deDupAfter ∅ (pre ++ [(A, a)])) mid ++
    (duplicateName n b, b) ::
    typIDs (deDupAfter ∅ (pre ++ (A, a) :: mid)) post
  /\ duplicateName n b <> n.
Proof.
  intros HA HB Hne Hpre. split; [| apply duplicateName_differs].
  assert (Hlen : negb (Nat.eqb (String.length n) 0) = true).
  { apply negb_true_iff. destruct (Nat.eqb (String.length n) 0) eqn:E; trivial.
    apply length_zero_empty in E. contradiction. }
  assert (Hfresh : default false (deDupAfter ∅ pre !! n) = false).
  { apply deDupAfter_fresh; [now rewrite lookup_empty | exact Hpre]. }
  assert (Hstep : deDupAfter ∅ (pre ++ [(A, a)])
                  = <[n := true]> (deDupAfter ∅ pre)).
  { rewrite deDupAfter_app. simpl. rewrite HA, Hlen, Hfresh. reflexivity. }
  assert (Hseen : default false
                    (deDupAfter ∅ (pre ++ (A, a) :: mid) !! n) = true).
  { change (pre ++ (A, a) :: mid) with (pre ++ [(A, a)] ++ mid).
    rewrite app_assoc, deDupAfter_app. apply deDupAfter_keeps.
    rewrite Hstep. now rewrite lookup_insert_eq. }
  rewrite typIDs_app. f_equal. simpl. rewrite HA, Hlen, Hfresh. f_equal.
  rewrite <- Hstep. rewrite typIDs_app. f_equal.
  simpl. rewrite HB, Hlen.
  replace (deDupAfter (deDupAfter ∅ (pre ++ [(A, a)])) mid)
    with (deDupAfter ∅ (pre ++ (A, a) :: mid)).
  - rewrite Hseen. reflexivity.
  - change (pre ++ (A, a) :: mid) with (pre ++ [(A, a)] ++ mid).
    now rewrite app_assoc, deDupAfter_app.
Qed.

Lemma inner_cases_mono (rel1 rel2 : types.type -> types.type -> bool)
    (V : types.type * Z) (pte : list (types.type * Z)) (t : Z) :
  (forall X Y, rel1 X Y = true -> rel2 X Y = true) ->
  existsb (fun t' => t' =? t)
    (omap (fun T => if negb (V.2 =? T.2) && rel1 V.1 T.1
                    then Some T.2 else None) pte) = true ->
  existsb (fun t' => t' =? t)
    (omap (fun T => if negb (V.2 =? T.2) && rel2 V.1 T.1
                    then Some T.2 else None) pte) = true.
Proof.
  intros Hrel. induction pte as [| T pte IH]; simpl; [trivial |].
  destruct (negb (V.2 =? T.2)); simpl; [| exact IH].
  destruct (rel1 V.1 T.1) eqn:E1.
  - rewrite (Hrel _ _ E1). simpl.
    destruct (T.2 =? t); simpl; [trivial | exact IH].
  - intros H. specialize (IH H).
    destruct (rel2 V.1 T.1); simpl; [| exact IH].
    apply orb_true_iff. right. exact IH.
Qed.

Lemma outer_cases_mono (rel1 rel2 : types.type -> types.type -> bool)
    (inner outer : list (types.type * Z)) (v t : Z) :
  (forall X Y, rel1 X Y = true -> rel2 X Y = true) ->
  match List.find (fun c : Z * list Z => c.1 =? v)
          (map (fun V : types.type * Z =>
                  (V.2,
                   omap (fun T => if negb (V.2 =? T.2) && rel1 V.1 T.1
                                  then Some T.2 else None) inner)) outer)
  with Some c => existsb (fun t' => t' =? t) c.2 | None => false end = true ->
  match List.find (fun c : Z * list Z => c.1 =? v)
          (map (fun V : types.type * Z =>
                  (V.2,
                   omap (fun T => if negb (V.2 =? T.2) && rel2 V.1 T.1
                                  then Some T.2 else None) inner)) outer)
  with Some c => existsb (fun t' => t' =? t) c.2 | None => false end = true.
Proof.
  intros Hrel. induction outer as [| V outer IH]; simpl; [trivial |].
  destruct (V.2 =? v); [| exact IH].
  simpl. now apply inner_cases_mono.
Qed.

Lemma runRelation_mono (rel1 rel2 : types.type -> types.type -> bool)
    (pte : list (types.type * Z)) (v t : Z) :
  (forall X Y, rel1 X Y = true -> rel2 X Y = true) ->
  runRelation (relationCases rel1 pte) v t = true ->
  runRelation (relationCases rel2 pte) v t = true.
Proof.
  intros Hrel. unfold runRelation. destruct (v =? t); [trivial |].
  now apply outer_cases_mono.
Qed.

(** C8: in the two functions written, equal IDs are always related, and
    whenever [isIdentical] relates two IDs so does [isAssignableTo],
    identical types being assignable in go/types. *)
Theorem isIdentical_isAssignableTo (pte : list (types.type * Z)) (v t : Z) :
  (forall X Y, Identical X Y = true -> AssignableTo X Y = true) ->
  (isIdentical pte v v = true /\ isAssignableTo pte v v = true) /\
  (isIdentical pte v t = true -> isAssignableTo pte v t = true).
Proof.
  intros Hrel. split.
  - unfold isIdentical, isAssignableTo, runRelation.
    now rewrite Z.eqb_refl.
  - apply runRelation_mono. exact Hrel.
Qed.

(** ** Properties of getHaxeClass and preprocessTypeName *)

Lemma hasChar_app (c : ascii) (s1 s2 : string) :
  hasChar c (s1 +:+ s2) = hasChar c s1 || hasChar c s2.
Proof.
  induction s1 as [| a s1 IH]; simpl; [reflexivity |].
  now rewrite IH, orb_assoc.
Qed.

Lemma prefix_one_byte (a c : ascii) (r : string) :
  String.prefix (String a EmptyString) (String c r) = Ascii.eqb c a.
Proof.
  cbn [String.prefix]. destruct (ascii_dec a c) as [-> | NE].
  - rewrite Ascii.eqb_refl. destruct r; reflexivity.
  - symmetry. apply Ascii.eqb_neq. congruence.
Qed.

Lemma Replace_underscore_gone (skip : nat) (s : string) :
  hasChar "_" (strings.ReplaceFrom "_" "." skip s) = false.
Proof.
  revert skip. induction s as [| c r IH]; intros skip; [reflexivity |].
  destruct skip as [| k]; cbn [strings.ReplaceFrom]; [| apply IH].
  rewrite prefix_one_byte. destruct (Ascii.eqb c "_") eqn:E.
  - rewrite hasChar_app, IH. reflexivity.
  - cbn [hasChar]. now rewrite E, IH.
Qed.

Lemma Replace_dots_adds_none (c : ascii) (skip : nat) (s : string) :
  c <> "."%char -> hasChar c s = false ->
  hasChar c (strings.ReplaceFrom "..." "." skip s) = false.
Proof.
  intros Hc. revert skip. induction s as [| a r IH]; intros skip H;
    [reflexivity |].
  simpl in H. apply orb_false_iff in H as [Ha Hr].
  destruct skip as [| k]; [| now apply IH].
  cbn [strings.ReplaceFrom].
  destruct (String.prefix "..." (String a r)).
  - rewrite hasChar_app, (IH _ Hr), orb_false_r. cbn [hasChar].
    rewrite orb_false_r. apply Ascii.eqb_neq. congruence.
  - cbn [hasChar]. now rewrite Ha, (IH _ Hr).
Qed.

(** X1: [getHaxeClass] logs nothing; the class name it gives holds no
    underscore; and it gives one only for a name that does not start with a
    star and whose last path segment starts with an underscore. *)
Theorem getHaxeClass_shape (fullname h : string) (log : list diag) :
  getHaxeClass fullname = Done h log ->
  log = [] /\
  hasChar "_" h = false /\
  (h <> EmptyString ->
   startsWith "*" fullname = false /\
   startsWith "_" (List.last (strings.Split "/" fullname) EmptyString) = true).
Proof.
  unfold getHaxeClass. destruct fullname as [| c r]; [discriminate |].
  unfold startsWith at 1.
  destruct (Ascii.eqb c "*") eqn:Ec; cbn [negb];
    [intros [= <- <-]; repeat split; congruence |].
  destruct (List.last (strings.Split "/" (String c r)) EmptyString)
    as [| c0 s0] eqn:Es; [discriminate |].
  cbn [startsWith].
  destruct (Ascii.eqb c0 "_") eqn:E0;
    [| intros [= <- <-]; repeat split; congruence].
  destruct (strings.Split "." (String c0 s0)) as [| p [| s1 [| x l]]];
    try (intros [= <- <-]; repeat split; congruence).
  destruct s1 as [| c1 goType]; [discriminate |].
  intros [= <- <-]. split; [reflexivity |]. split; [| now split].
  unfold strings.Replace. apply Replace_dots_adds_none; [discriminate |].
  apply Replace_underscore_gone.
Qed.

Lemma preprocessLoop_escaped (s : string) (had : bool) :
  quotesEscaped had (preprocessLoop had s) = true.
Proof.
  revert had. induction s as [| c r IH]; intros had; [reflexivity |].
  cbn [preprocessLoop]. destruct had.
  - cbn [quotesEscaped]. apply IH.
  - destruct (Ascii.eqb c (ascii_of_nat 34)) eqn:Eq.
    + cbn [quotesEscaped]. simpl. apply IH.
    + destruct (Ascii.eqb c "\") eqn:Eb; cbn [quotesEscaped];
        rewrite Eq, Eb; apply IH.
Qed.

(** X2: the name [preprocessTypeName] gives, read as the body of a string
    constant, holds no double quote that is not escaped: none is left that
    would end the constant the name is put in. *)
Theorem preprocessTypeName_quotes_escaped (v : string) :
  quotesEscaped false (preprocessTypeName v) = true.
Proof. apply preprocessLoop_escaped. Qed.

Lemma preprocessLoop_idempotent (s : string) (had : bool) :
  preprocessLoop had (preprocessLoop had s) = preprocessLoop had s.
Proof.
  revert had. induction s as [| c r IH]; intros had; [reflexivity |].
  cbn [preprocessLoop]. destruct had.
  - cbn [preprocessLoop]. now rewrite IH.
  - destruct (Ascii.eqb c (ascii_of_nat 34)) eqn:Eq.
    + cbn [preprocessLoop]. simpl. now rewrite IH.
    + destruct (Ascii.eqb c "\") eqn:Eb; cbn [preprocessLoop];
        rewrite Eq, Eb, IH; reflexivity.
Qed.

Lemma TrimLeft_id (c : ascii) (s : string) :
  startsWith c s = false -> strings.TrimLeft c s = s.
Proof. destruct s as [| a r]; simpl; [reflexivity |]. now intros ->. Qed.

Lemma TrimLeft_starts (c : ascii) (s : string) :
  startsWith c (strings.TrimLeft c s) = false.
Proof.
  induction s as [| a r IH]; [reflexivity |]. simpl.
  destruct (Ascii.eqb a c) eqn:E; [exact IH | simpl; exact E].
Qed.

Lemma endsWith_cons (c a : ascii) (s : string) :
  s <> EmptyString -> endsWith c (String a s) = endsWith c s.
Proof. destruct s; [congruence | reflexivity]. Qed.

Lemma TrimRight_cons (c a : ascii) (r : string) :
  strings.TrimRight c (String a r)
  = match strings.TrimRight c r with
    | EmptyString => if Ascii.eqb a c then EmptyString
                     else String a EmptyString
    | String b t => String a (String b t)
    end.
Proof. reflexivity. Qed.

Lemma TrimRight_id (c : ascii) (s : string) :
  endsWith c s = false -> strings.TrimRight c s = s.
Proof.
  induction s as [| a r IH]; [reflexivity |].
  destruct r as [| b r'].
  - simpl. now intros ->.
  - intros H. rewrite endsWith_cons in H by discriminate.
    rewrite TrimRight_cons, (IH H). reflexivity.
Qed.

Lemma TrimRight_ends (c : ascii) (s : string) :
  endsWith c (strings.TrimRight c s) = false.
Proof.
  induction s as [| a r IH]; [reflexivity |].
  rewrite TrimRight_cons.
  destruct (strings.TrimRight c r) as [| b t] eqn:E.
  - destruct (Ascii.eqb a c) eqn:Ea; [reflexivity | simpl; exact Ea].
  - rewrite endsWith_cons by discriminate. exact IH.
Qed.

Lemma TrimRight_starts (c : ascii) (s : string) :
  startsWith c s = false -> startsWith c (strings.TrimRight c s) = false.
Proof.
  destruct s as [| a r]; [reflexivity |]. cbn [startsWith]. intros Ha.
  rewrite TrimRight_cons.
  destruct (strings.TrimRight c r); [rewrite Ha |]; cbn [startsWith];
    trivial.
Qed.

Lemma preprocessLoop_starts (s : string) (had : bool) :
  startsWith (ascii_of_nat 34) s = false ->
  startsWith (ascii_of_nat 34) (preprocessLoop had s) = false.
Proof.
  destruct s as [| c r]; [reflexivity |]. cbn [startsWith preprocessLoop].
  intros E. rewrite E. destruct had; [exact E |].
  destruct (Ascii.eqb c "\"); exact E.
Qed.

Lemma preprocessLoop_nonempty (s : string) (had : bool) :
  s <> EmptyString -> preprocessLoop had s <> EmptyString.
Proof.
  destruct s as [| c r]; [congruence |]. intros _. cbn [preprocessLoop].
  destruct had; [discriminate |].
  destruct (Ascii.eqb c (ascii_of_nat 34)); [discriminate |].
  destruct (Ascii.eqb c "\"); discriminate.
Qed.

Lemma preprocessLoop_cons (had : bool) (c : ascii) (r : string) :
  preprocessLoop had (String c r)
  = if had then String c (preprocessLoop false r)
    else if Ascii.eqb c (ascii_of_nat 34)
    then String "\"%char (String (ascii_of_nat 34) (preprocessLoop false r))
    else if Ascii.eqb c "\"%char then String c (preprocessLoop true r)
    else String c (preprocessLoop false r).
Proof. reflexivity. Qed.

Lemma preprocessLoop_ends (s : string) (had : bool) :
  endsWith (ascii_of_nat 34) s = false ->
  endsWith (ascii_of_nat 34) (preprocessLoop had s) = false.
Proof.
  revert had. induction s as [| c r IH]; intros had; [reflexivity |].
  destruct r as [| b r'].
  - cbn [endsWith preprocessLoop]. intros E. rewrite E.
    destruct had; [exact E |]. destruct (Ascii.eqb c "\"); exact E.
  - intros H. rewrite endsWith_cons in H by discriminate.
    assert (Hn : forall h, preprocessLoop h (String b r') <> EmptyString)
      by (intros h; apply preprocessLoop_nonempty; discriminate).
    rewrite preprocessLoop_cons. destruct had.
    + rewrite endsWith_cons by apply Hn. now apply IH.
    + destruct (Ascii.eqb c (ascii_of_nat 34)).
      * rewrite !endsWith_cons by (try apply Hn; discriminate).
        now apply IH.
      * destruct (Ascii.eqb c "\"); rewrite endsWith_cons by apply Hn;
          now apply IH.
Qed.

(** X3: [preprocessTypeName] changes nothing in a name it has made: a
    second pass escapes nothing twice. *)
Theorem preprocessTypeName_idempotent (v : string) :
  preprocessTypeName (preprocessTypeName v) = preprocessTypeName v.
Proof.
  unfold preprocessTypeName at 1. unfold strings.Trim.
  rewrite TrimLeft_id, TrimRight_id.
  - unfold preprocessTypeName. apply preprocessLoop_idempotent.
  - apply preprocessLoop_ends. apply TrimRight_ends.
  - apply preprocessLoop_starts. apply TrimRight_starts, TrimLeft_starts.
Qed.

Lemma preprocessLoop_plain (s : string) :
  hasChar (ascii_of_nat 34) s = false -> hasChar "\" s = false ->
  preprocessLoop false s = s.
Proof.
  induction s as [| c r IH]; [reflexivity |]. simpl.
  intros Hq Hb. apply orb_false_iff in Hq as [Hq Hq'].
  apply orb_false_iff in Hb as [Hb Hb'].
  rewrite Hq, Hb. now rewrite IH.
Qed.

Lemma no_char_no_start (c : ascii) (s : string) :
  hasChar c s = false -> startsWith c s = false.
Proof.
  destruct s; simpl; [reflexivity |].
  intros H. now apply orb_false_iff in H as [H _].
Qed.

Lemma no_char_no_end (c : ascii) (s : string) :
  hasChar c s = false -> endsWith c s = false.
Proof.
  induction s as [| a r IH]; [reflexivity |]. simpl hasChar.
  intros H. apply orb_false_iff in H as [Ha Hr].
  destruct r; [exact Ha |]. rewrite endsWith_cons by discriminate.
  now apply IH.
Qed.

(** X4: a name without a double quote and without a backslash, as the
    names of most types are, comes out of [preprocessTypeName] as it went
    in. *)
Theorem preprocessTypeName_plain (v : string) :
  hasChar (ascii_of_nat 34) v = false -> hasChar "\" v = false ->
  preprocessTypeName v = v.
Proof.
  intros Hq Hb. unfold preprocessTypeName, strings.Trim.
  rewrite (TrimLeft_id _ v) by now apply no_char_no_start.
  rewrite TrimRight_id by now apply no_char_no_end.
  now apply preprocessLoop_plain.
Qed.

(** ** Properties of getTypeInfo *)

(** X5: whatever the type, [getTypeInfo] reports the field alignment 0,
    the result variable being never assigned, and logs nothing. *)
Theorem getTypeInfo_fieldAlign_zero (fuel : nat) (t : types.type)
    (tname : string) (fieldAlign : Z) (kind : reflect.Kind) (name : string)
    (log : list diag) :
  getTypeInfo fuel t tname = Done (fieldAlign, kind, name) log ->
  fieldAlign = 0 /\ log = [].
Proof.
  revert t tname. induction fuel as [| fuel IH]; intros t tname;
    [discriminate |].
  cbn [getTypeInfo].
  destruct t as [k | obj | | e | e | e len | fs | ky e | e | ps rs | vs | r];
    try discriminate; try (intros [= <- _ _ <-]; now split).
  - destruct k; try discriminate; intros [= <- _ _ <-]; now split.
  - apply IH.
Qed.

(** X6: the name reported is the one passed in when there is one;
    without one, it is the object name of a named type (when that name is
    not empty) and empty for a type that is not named. *)
Theorem getTypeInfo_name (fuel : nat) (t : types.type) (tname : string)
    (fieldAlign : Z) (kind : reflect.Kind) (name : string)
    (log : list diag) :
  getTypeInfo fuel t tname = Done (fieldAlign, kind, name) log ->
  (tname <> EmptyString -> name = tname) /\
  (tname = EmptyString -> isNamed t = false -> name = EmptyString) /\
  (tname = EmptyString ->
   forall obj, t = types.Named obj -> ObjName obj <> EmptyString ->
     name = ObjName obj).
Proof.
  assert (Hgiven : forall fuel t tname fieldAlign kind name log,
             getTypeInfo fuel t tname = Done (fieldAlign, kind, name) log ->
             tname <> EmptyString -> name = tname).
  { clear. intros fuel. induction fuel as [| fuel IH];
      intros t tname fieldAlign kind name log; [discriminate |].
    cbn [getTypeInfo]. intros H Hne.
    apply String.eqb_neq in Hne. rewrite Hne in H. cbn [negb] in H.
    destruct t as [k | obj | | e | e | e len | fs | ky e | e | ps rs | vs | r];
      try discriminate; try (now injection H as _ _ <- _).
    - destruct k; try discriminate; now injection H as _ _ <- _.
    - apply (IH _ _ _ _ _ _ H). now apply String.eqb_neq. }
  intros H. split; [apply (Hgiven _ _ _ _ _ _ _ H) |]. split.
  - intros -> Hn. destruct fuel as [| fuel]; [discriminate |].
    cbn [getTypeInfo] in H. cbn in H.
    destruct t as [k | obj | | e | e | e len | fs | ky e | e | ps rs | vs | r];
      try discriminate; try (now injection H as _ _ <- _).
    destruct k; try discriminate; now injection H as _ _ <- _.
  - intros -> obj -> Hobj. destruct fuel as [| fuel]; [discriminate |].
    cbn [getTypeInfo] in H. rewrite String.eqb_refl in H.
    apply (Hgiven _ _ _ _ _ _ _ H Hobj).
Qed.

Lemma getTypeInfo_kind_any_name (fuel : nat) (t : types.type)
    (tname tname' : string) (fieldAlign : Z) (kind : reflect.Kind)
    (name : string) (log : list diag) :
  getTypeInfo fuel t tname = Done (fieldAlign, kind, name) log ->
  exists name', getTypeInfo fuel t tname' = Done (fieldAlign, kind, name') log.
Proof.
  revert t tname tname' name. induction fuel as [| fuel IH];
    intros t tname tname' name; [discriminate |].
  cbn [getTypeInfo].
  destruct t as [k | obj | | e | e | e len | fs | ky e | e | ps rs | vs | r];
    try discriminate;
    try (intros [= <- <- _ <-]; eexists; reflexivity).
  - destruct k; try discriminate; intros [= <- <- _ <-]; eexists; reflexivity.
  - apply IH.
Qed.

(** X7: the kind of a named type is the kind of the type it is declared
    as. *)
Theorem getTypeInfo_named_kind (fuel : nat) (obj : string)
    (fieldAlign : Z) (kind : reflect.Kind) (name : string)
    (log : list diag) :
  getTypeInfo (S fuel) (types.Named obj) EmptyString
    = Done (fieldAlign, kind, name) log ->
  exists name',
    getTypeInfo fuel (declared obj) EmptyString
      = Done (fieldAlign, kind, name') log.
Proof.
  cbn [getTypeInfo]. intros H.
  exact (getTypeInfo_kind_any_name _ _ _ _ _ _ _ _ H).
Qed.

(** X8: on a basic type [getTypeInfo] returns for the kinds of typed
    values and panics for the invalid kind and for the kinds of untyped
    constants; it panics on a tuple and on a type outside the known
    variants too. *)
Theorem getTypeInfo_panics (fuel : nat) (tname : string) :
  (forall k,
     (typedKind k = true ->
      exists kind, getTypeInfo (S fuel) (types.Basic k) tname
                   = Done (0, kind, tname) []) /\
     (typedKind k = false ->
      getTypeInfo (S fuel) (types.Basic k) tname = Panic)) /\
  (forall vars, getTypeInfo (S fuel) (types.Tuple vars) tname = Panic) /\
  (forall rTyp, getTypeInfo (S fuel) (types.Other rTyp) tname = Panic).
Proof.
  assert (Hname : (if negb (String.eqb tname EmptyString)
                   then tname else EmptyString) = tname).
  { destruct (String.eqb_spec tname EmptyString) as [-> | _]; reflexivity. }
  split; [| split; reflexivity].
  intros k. cbn [getTypeInfo]. rewrite Hname.
  split; intros H; destruct k; try discriminate H; try reflexivity;
    eexists; reflexivity.
Qed.

(** ** Properties of the table by ID *)

Lemma fillTypesByID_length (pte : list (types.type * Z))
    (tbl tbl' : list (option types.type)) (log : list diag) :
  fillTypesByID pte tbl = Done tbl' log ->
  length tbl' = length tbl /\ log = [].
Proof.
  revert tbl. induction pte as [| [key v] pte IH]; intros tbl; simpl.
  - intros [= <- <-]. now split.
  - destruct ((0 <=? v) && (v <? Z.of_nat (length tbl))); [| discriminate].
    intros H. apply IH in H as [H ->]. now rewrite length_insert in H.
Qed.

Lemma fillTypesByID_in_range (pte : list (types.type * Z))
    (tbl : list (option types.type)) :
  (Forall (fun e => 0 <= e.2 < Z.of_nat (length tbl)) pte ->
   exists tbl', fillTypesByID pte tbl = Done tbl' []) /\
  (~ Forall (fun e => 0 <= e.2 < Z.of_nat (length tbl)) pte ->
   fillTypesByID pte tbl = Panic).
Proof.
  revert tbl. induction pte as [| [key v] pte IH]; intros tbl; simpl.
  - split; [intros _; eexists; reflexivity |].
    intros H. destruct H. constructor.
  - destruct ((0 <=? v) && (v <? Z.of_nat (length tbl))) eqn:E.
    + apply andb_true_iff in E as [E1 E2].
      apply Z.leb_le in E1. apply Z.ltb_lt in E2.
      destruct (IH (<[Z.to_nat v := Some key]> tbl)) as [IH1 IH2].
      rewrite length_insert in IH1, IH2. split.
      * intros H. apply Forall_cons in H as [_ H]. now apply IH1.
      * intros H. apply IH2. intros H'. apply H.
        constructor; [simpl; lia | exact H'].
    + split; [| reflexivity].
      intros H. apply Forall_cons in H as [H _]. simpl in H.
      apply andb_false_iff in E as [E | E].
      * apply Z.leb_gt in E. lia.
      * apply Z.ltb_ge in E. lia.
Qed.

(** X9: the table by ID is built exactly when the next ID is not negative
    and every ID recorded lies from 0 up to the next ID, excluded, and then
    it has one element per ID; with any other ID the emitter panics on the
    index. *)
Theorem typesByID_in_range (NextTypeID : Z) (pte : list (types.type * Z)) :
  (0 <= NextTypeID /\ Forall (fun e => 0 <= e.2 < NextTypeID) pte ->
   exists tbl, typesByID NextTypeID pte = Done tbl [] /\
               length tbl = Z.to_nat NextTypeID) /\
  (~ (0 <= NextTypeID /\ Forall (fun e => 0 <= e.2 < NextTypeID) pte) ->
   typesByID NextTypeID pte = Panic).
Proof.
  unfold typesByID. destruct (NextTypeID <? 0) eqn:E.
  - apply Z.ltb_lt in E. split; [lia | reflexivity].
  - apply Z.ltb_ge in E.
    destruct (fillTypesByID_in_range pte
                (replicate (Z.to_nat NextTypeID) None)) as [H1 H2].
    rewrite length_replicate, Z2Nat.id in H1, H2 by exact E. split.
    + intros [_ H]. destruct (H1 H) as [tbl Ht]. exists tbl.
      split; [exact Ht |]. apply fillTypesByID_length in Ht as [Ht _].
      now rewrite Ht, length_replicate.
    + intros H. apply H2. intros H'. apply H. now split.
Qed.

Lemma fillTypesByID_untouched (pte : list (types.type * Z))
    (tbl tbl' : list (option types.type)) (log : list diag) (i : nat) :
  fillTypesByID pte tbl = Done tbl' log ->
  Z.of_nat i ∉ map snd pte ->
  tbl' !! i = tbl !! i.
Proof.
  revert tbl. induction pte as [| [key v] pte IH]; intros tbl; simpl.
  - now intros [= <- <-].
  - destruct ((0 <=? v) && (v <? Z.of_nat (length tbl))) eqn:E;
      [| discriminate].
    intros H Hi. apply not_elem_of_cons in Hi as [Hv Hi].
    rewrite (IH _ H Hi). apply list_lookup_insert_ne.
    apply andb_true_iff in E as [E _]. apply Z.leb_le in E. lia.
Qed.

(** X10: when no two types share an ID, the table by ID holds every type
    at the index of its ID and nothing at the index of an ID that no type
    has (the reserved 0 among them). *)
Theorem typesByID_lookup (NextTypeID : Z) (pte : list (types.type * Z))
    (tbl : list (option types.type)) (log : list diag) :
  typesByID NextTypeID pte = Done tbl log ->
  NoDup (map snd pte) ->
  (forall key v, (key, v) ∈ pte -> tbl !! Z.to_nat v = Some (Some key)) /\
  (forall i, (i < Z.to_nat NextTypeID)%nat -> Z.of_nat i ∉ map snd pte ->
     tbl !! i = Some None).
Proof.
  unfold typesByID. destruct (NextTypeID <? 0); [discriminate |].
  intros H Hnd. split.
  - generalize dependent (replicate (Z.to_nat NextTypeID)
                            (@None types.type)).
    induction pte as [| [key0 v0] pte IH]; intros tbl0 H key v Hin.
    + now apply elem_of_nil in Hin.
    + simpl in H, Hnd. apply NoDup_cons in Hnd as [Hv0 Hnd].
      destruct ((0 <=? v0) && (v0 <? Z.of_nat (length tbl0))) eqn:E;
        [| discriminate].
      apply andb_true_iff in E as [E1 E2].
      apply Z.leb_le in E1. apply Z.ltb_lt in E2.
      apply elem_of_cons in Hin as [[= -> ->] | Hin].
      * rewrite (fillTypesByID_untouched _ _ _ _ (Z.to_nat v0) H)
          by (rewrite Z2Nat.id by exact E1; exact Hv0).
        apply list_lookup_insert_eq. lia.
      * now apply (IH Hnd _ H).
  - intros i Hi Hnot.
    rewrite (fillTypesByID_untouched _ _ _ _ i H Hnot).
    now apply lookup_replicate_2.
Qed.

(** ** Further properties of the name table and of the relation tables *)

(** X11: the name table holds one entry for every type whose name is not
    empty, in the order of the types and each with the ID of its type: no
    type is left out and no two are merged. *)
Theorem typIDs_ids (deDup : gmap string bool) (pte : list (types.type * Z)) :
  map snd (typIDs deDup pte)
  = map snd
      (List.filter
         (fun e => negb (Nat.eqb (String.length (typIDName e.1)) 0)) pte).
Proof.
  revert deDup. induction pte as [| [key v] pte IH]; intros deDup;
    [reflexivity |].
  simpl. destruct (negb (Nat.eqb (String.length (typIDName key)) 0));
    [| apply IH].
  destruct (default false (deDup !! typIDName key)); simpl; now rewrite IH.
Qed.

Lemma app_inv_tail (s1 s2 t : string) : s1 +:+ t = s2 +:+ t -> s1 = s2.
Proof.
  revert s2. induction s1 as [| c s1 IH]; intros [| c' s2] H; simpl in H.
  - reflexivity.
  - apply (f_equal String.length) in H. simpl in H.
    rewrite !length_app in H. simpl in H. lia.
  - apply (f_equal String.length) in H. simpl in H.
    rewrite !length_app in H. simpl in H. lia.
  - injection H as -> H. f_equal. now apply IH.
Qed.

(** X12: the mark of a duplicate tells the IDs apart: two later types of
    one name and of different IDs are written under different names. *)
Theorem duplicateName_tells_ids_apart (nam : string) (v1 v2 : Z) :
  v1 <> v2 -> duplicateName nam v1 <> duplicateName nam v2.
Proof.
  intros Hne H. apply Hne. unfold duplicateName in H.
  apply (inj (String.append (dropLast nam))) in H.
  apply (inj (String.append " (duplicate type name! this id=")) in H.
  apply app_inv_tail in H. now apply (inj pretty) in H.
Qed.

Lemma elem_of_map {X Y : Type} (f : X -> Y) (l : list X) (y : Y) :
  y ∈ map f l <-> exists x, f x = y /\ x ∈ l.
Proof.
  rewrite list_elem_of_In, in_map_iff.
  split; intros (x & H1 & H2); exists x; split; trivial;
    now apply list_elem_of_In.
Qed.

Lemma find_unique_id (pte : list (types.type * Z)) (A : types.type) (a : Z) :
  NoDup (map snd pte) -> (A, a) ∈ pte ->
  List.find (fun V : types.type * Z => V.2 =? a) pte = Some (A, a).
Proof.
  induction pte as [| [K k] pte IH]; intros Hnd Hin.
  - now apply elem_of_nil in Hin.
  - simpl in Hnd. apply NoDup_cons in Hnd as [Hk Hnd]. simpl.
    apply elem_of_cons in Hin as [[= <- <-] | Hin].
    + now rewrite Z.eqb_refl.
    + destruct (k =? a) eqn:E; [| now apply IH].
      apply Z.eqb_eq in E. subst k. exfalso. apply Hk.
      apply elem_of_map. now exists (A, a).
Qed.

Lemma find_relationCases (rel : types.type -> types.type -> bool)
    (inner outer : list (types.type * Z)) (v : Z) :
  List.find (fun c : Z * list Z => c.1 =? v)
    (map (fun V : types.type * Z =>
            (V.2,
             omap (fun T : types.type * Z =>
                     if negb (V.2 =? T.2) && rel V.1 T.1
                     then Some T.2 else None) inner)) outer)
  = option_map
      (fun V : types.type * Z =>
         (V.2,
          omap (fun T : types.type * Z =>
                  if negb (V.2 =? T.2) && rel V.1 T.1
                  then Some T.2 else None) inner))
      (List.find (fun V : types.type * Z => V.2 =? v) outer).
Proof.
  induction outer as [| V outer IH]; [reflexivity |]. simpl.
  destruct (V.2 =? v); [reflexivity | exact IH].
Qed.

Lemma inner_cases_spec (rel : types.type -> types.type -> bool)
    (V : types.type * Z) (pte : list (types.type * Z)) (t : Z) :
  existsb (fun t' => t' =? t)
    (omap (fun T : types.type * Z =>
             if negb (V.2 =? T.2) && rel V.1 T.1 then Some T.2 else None)
       pte) = true
  <-> exists T, T ∈ pte /\ T.2 = t /\ V.2 <> t /\ rel V.1 T.1 = true.
Proof.
  induction pte as [| T pte IH]; simpl.
  - split; [discriminate |]. intros (T & Hin & _). now apply elem_of_nil in Hin.
  - destruct (negb (V.2 =? T.2) && rel V.1 T.1) eqn:E; simpl.
    + apply andb_true_iff in E as [E1 E2]. apply negb_true_iff in E1.
      apply Z.eqb_neq in E1. rewrite orb_true_iff, IH, Z.eqb_eq. split.
      * intros [<- | (T' & Hin & H)].
        -- exists T. split; [left | now repeat split].
        -- exists T'. split; [now right | exact H].
      * intros (T' & Hin & Ht & H). apply elem_of_cons in Hin as [-> | Hin].
        -- now left.
        -- right. now exists T'.
    + rewrite IH. split.
      * intros (T' & Hin & H). exists T'. split; [now right | exact H].
      * intros (T' & Hin & Ht & Hv & Hr).
        apply elem_of_cons in Hin as [-> | Hin]; [| now exists T'].
        exfalso. apply andb_false_iff in E as [E | E].
        -- apply negb_false_iff, Z.eqb_eq in E. congruence.
        -- congruence.
Qed.

Lemma runRelation_unique_ids (rel : types.type -> types.type -> bool)
    (pte : list (types.type * Z)) (A B : types.type) (a b : Z) :
  NoDup (map snd pte) -> (A, a) ∈ pte -> (B, b) ∈ pte ->
  runRelation (relationCases rel pte) a b = true
  <-> a = b \/ rel A B = true.
Proof.
  intros Hnd HA HB. unfold runRelation, relationCases.
  destruct (a =? b) eqn:E.
  - apply Z.eqb_eq in E. split; [now left | reflexivity].
  - apply Z.eqb_neq in E.
    rewrite find_relationCases, (find_unique_id _ _ _ Hnd HA).
    pose proof (inner_cases_spec rel (A, a) pte b) as Hspec.
    simpl in Hspec. simpl. rewrite Hspec. split.
    + intros ([B' b'] & Hin & Hb & _ & Hr). simpl in Hb, Hr. subst b'.
      right. pose proof (find_unique_id _ _ _ Hnd HB) as F1.
      pose proof (find_unique_id _ _ _ Hnd Hin) as F2.
      rewrite F1 in F2. now injection F2 as <-.
    + intros [-> | Hr]; [contradiction |].
      exists (B, b). now repeat split.
Qed.

(** X13: when no two types share an ID, the two functions written decide
    the relations of go/types on the types recorded: on the IDs of two of
    them, [isAssignableTo] is true exactly when the IDs are equal or the
    first type is assignable to the second, and [isIdentical] exactly when
    the IDs are equal or the types are identical. *)
Theorem relations_decide (pte : list (types.type * Z))
    (A B : types.type) (a b : Z) :
  NoDup (map snd pte) -> (A, a) ∈ pte -> (B, b) ∈ pte ->
  (isAssignableTo pte a b = true <-> a = b \/ AssignableTo A B = true) /\
  (isIdentical pte a b = true <-> a = b \/ Identical A B = true).
Proof.
  intros Hnd HA HB. split; now apply runRelation_unique_ids.
Qed.

Lemma runRelation_unknown (rel : types.type -> types.type -> bool)
    (pte : list (types.type * Z)) (v t : Z) :
  v ∉ map snd pte \/ t ∉ map snd pte ->
  runRelation (relationCases rel pte) v t = (v =? t).
Proof.
  intros H. unfold runRelation, relationCases.
  destruct (v =? t) eqn:E; [reflexivity |].
  rewrite find_relationCases.
  destruct (List.find (fun V : types.type * Z => V.2 =? v) pte)
    as [V |] eqn:F; [| reflexivity].
  simpl. apply not_true_is_false. intros Hex.
  apply inner_cases_spec in Hex as (T & Hin & Ht & _).
  apply find_some in F as [HV Hv]. apply Z.eqb_eq in Hv.
  destruct H as [H | H]; apply H, elem_of_map.
  - exists V. split; [exact Hv | now apply list_elem_of_In].
  - exists T. split; [exact Ht | exact Hin].
Qed.

(** X14: on an ID that no recorded type has, as either argument, both
    functions answer true only when the two IDs are equal. *)
Theorem relations_unknown_id (pte : list (types.type * Z)) (v t : Z) :
  v ∉ map snd pte \/ t ∉ map snd pte ->
  isAssignableTo pte v t = (v =? t) /\ isIdentical pte v t = (v =? t).
Proof. intros H. split; now apply runRelation_unknown. Qed.

(** X15: when no two types share an ID, [isConcrete] is false on the ID of
    a recorded type exactly when its underlying type is an interface; on an
    ID that no type has it is false. *)
Theorem isConcrete_decides (pte : list (types.type * Z)) :
  (NoDup (map snd pte) ->
   forall A a, (A, a) ∈ pte ->
     isConcrete pte a = negb (isInterface (Underlying A))) /\
  (forall t, t ∉ map snd pte -> isConcrete pte t = false).
Proof.
  unfold isConcrete, isConcreteCases. split.
  - intros Hnd A a HA.
    induction pte as [| [K k] pte IH]; [now apply elem_of_nil in HA |].
    simpl in Hnd. apply NoDup_cons in Hnd as [Hk Hnd]. simpl.
    apply elem_of_cons in HA as [[= <- <-] | HA].
    + now rewrite Z.eqb_refl.
    + destruct (k =? a) eqn:E; [| now apply IH].
      apply Z.eqb_eq in E. subst k. exfalso. apply Hk.
      apply elem_of_map. now exists (A, a).
  - intros t Ht. induction pte as [| [K k] pte IH]; [reflexivity |].
    simpl in Ht. apply not_elem_of_cons in Ht as [Hk Ht]. simpl.
    destruct (k =? t) eqn:E; [| now apply IH].
    apply Z.eqb_eq in E. congruence.
Qed.

Lemma bind_Done_inv {A B : Type} (m : res A) (f : A -> res B) (b : B)
    (log : list diag) :
  m ≫= f = Done b log ->
  exists a l1 l2, m = Done a l1 /\ f a = Done b l2 /\ log = l1 ++ l2.
Proof.
  destruct m as [a l1 | |]; try discriminate. simpl.
  destruct (f a) as [b' l2 | |] eqn:E; try discriminate.
  intros [= <- <-]. now exists a, l1, l2.
Qed.

Lemma zeroValueCases_returns (fuel : nat) (pte : list (types.type * Z)) :
  Forall (fun T : types.type * Z =>
            exists z l, LangType fuel T.1 true "EmitTypeInfo()" = Done z l)
    pte ->
  exists cases log,
    zeroValueCases fuel pte = Done cases log /\
    map fst cases = map snd pte /\
    Forall2 (fun (T : types.type * Z) (c : Z * string) =>
               exists z l,
                 LangType fuel T.1 true "EmitTypeInfo()" = Done z l /\
                 c.2 = if String.eqb z EmptyString then "null" else z)
      pte cases /\
    Forall (fun c : Z * string => c.2 <> EmptyString) cases.
Proof.
  induction pte as [| T pte IH]; intros H.
  - exists [], []. repeat split; constructor.
  - apply Forall_cons in H as [(z & l & Hz) H].
    destruct (IH H) as (cases & log & Hc & Hfst & Hall & Hne).
    exists ((T.2, if String.eqb z EmptyString then "null" else z) :: cases),
           (l ++ log ++ []).
    split; [| split; [| split]].
    + cbn [zeroValueCases]. rewrite (bind_Done _ _ _ _ Hz).
      rewrite (bind_Done _ _ _ _ Hc). reflexivity.
    + simpl. now rewrite Hfst.
    + constructor; [| exact Hall]. now exists z, l.
    + constructor; [| exact Hne]. simpl.
      destruct (String.eqb_spec z EmptyString); [discriminate | assumption].
Qed.

Lemma zeroValueCases_needs_all (fuel : nat) (pte : list (types.type * Z))
    (cases : list (Z * string)) (log : list diag) :
  zeroValueCases fuel pte = Done cases log ->
  Forall (fun T : types.type * Z =>
            exists z l, LangType fuel T.1 true "EmitTypeInfo()" = Done z l)
    pte.
Proof.
  revert cases log. induction pte as [| T pte IH]; intros cases log;
    [constructor |].
  cbn [zeroValueCases]. intros H.
  apply bind_Done_inv in H as (z & l1 & l2 & Hz & H & ->).
  apply bind_Done_inv in H as (cs & l3 & l4 & Hcs & H & ->).
  constructor; [now exists z, l1 | now apply (IH _ _ Hcs)].
Qed.

(** X16: when [LangType] returns the zero value of every recorded type,
    [zeroValue] is written with one case for every recorded type, in their
    order, each returning the zero value of its type, or [null] where that
    text is empty (the empty tuple), so that no case is empty; when the
    lowering of some recorded type does not return, as for a map type whose
    elements are of the same map type, nothing is written. *)
Theorem zeroValueCases_complete (fuel : nat) (pte : list (types.type * Z)) :
  (Forall (fun T : types.type * Z =>
             exists z l, LangType fuel T.1 true "EmitTypeInfo()" = Done z l)
     pte ->
   exists cases log,
     zeroValueCases fuel pte = Done cases log /\
     map fst cases = map snd pte /\
     Forall2 (fun (T : types.type * Z) (c : Z * string) =>
                exists z l,
                  LangType fuel T.1 true "EmitTypeInfo()" = Done z l /\
                  c.2 = if String.eqb z EmptyString then "null" else z)
       pte cases /\
     Forall (fun c : Z * string => c.2 <> EmptyString) cases) /\
  (~ Forall (fun T : types.type * Z =>
               exists z l, LangType fuel T.1 true "EmitTypeInfo()" = Done z l)
       pte ->
   forall cases log, zeroValueCases fuel pte <> Done cases log).
Proof.
  split; [apply zeroValueCases_returns |].
  intros Hnot cases log H. apply Hnot.
  exact (zeroValueCases_needs_all _ _ _ _ H).
Qed.

(** ** Further properties of LangType *)

Lemma getHaxeClass_no_log (fullname h : string) (log : list diag) :
  getHaxeClass fullname = Done h log -> log = [].
Proof.
  unfold getHaxeClass. destruct fullname as [| c r]; [discriminate |].
  destruct (negb (Ascii.eqb c "*")); [| now intros [= _ <-]].
  destruct (List.last (strings.Split "/" (String c r)) EmptyString)
    as [| c0 s0]; [discriminate |].
  destruct (Ascii.eqb c0 "_"); [| now intros [= _ <-]].
  destruct (strings.Split "." (String c0 s0)) as [| p [| s1 [| x l]]];
    try (now intros [= _ <-]).
  destruct s1; [discriminate | now intros [= _ <-]].
Qed.

Lemma tupleFields_log (lower : types.type -> res string)
    (P : diag -> Prop) :
  (forall u out log, lower u = Done out log -> Forall P log) ->
  forall vars ele ret out log,
    tupleFields lower ele vars ret = Done out log -> Forall P log.
Proof.
  intros Hl. induction vars as [| t vars IH]; intros ele ret out log; simpl.
  - intros [= <- <-]. constructor.
  - intros H. apply bind_Done_inv in H as (s & l1 & l2 & Hs & H & ->).
    apply Forall_app. split; [now apply (Hl _ _ _ Hs) | now apply (IH _ _ _ _ H)].
Qed.

(** X17: every diagnostic that [LangType] logs, at whatever depth of the
    type, carries the position it was called with and the tag of the Haxe
    back end. *)
Theorem LangType_diagnostics_tagged (fuel : nat) (t : types.type)
    (retInitVal : bool) (errorInfo out : string) (log : list diag) :
  LangType fuel t retInitVal errorInfo = Done out log ->
  Forall (fun d => pos d = errorInfo /\ backend d = "Haxe") log.
Proof.
  revert t retInitVal out log.
  induction fuel as [| fuel IH]; intros t b out log; [discriminate |].
  cbn [LangType].
  destruct (IsValidInPogo t errorInfo); [| intros [= <- <-]; constructor].
  destruct t as [k | obj | | e | e | e len | fs | ky e | e | ps rs | vs | r].
  - destruct k, b; simpl; intros [= <- <-]; repeat constructor.
  - intros H. apply bind_Done_inv in H as (h & l1 & l2 & Hh & H & ->).
    apply getHaxeClass_no_log in Hh as ->. simpl.
    destruct (negb (String.eqb h EmptyString)).
    + destruct b; injection H as <- <-; constructor.
    + now apply IH in H.
  - destruct b; intros [= <- <-]; constructor.
  - destruct b; intros [= <- <-]; constructor.
  - destruct b; intros [= <- <-]; constructor.
  - destruct b; intros [= <- <-]; constructor.
  - destruct b; intros [= <- <-]; constructor.
  - destruct b; [| intros [= <- <-]; constructor].
    intros H. apply bind_Done_inv in H as (k & l1 & l2 & Hk & H & ->).
    apply bind_Done_inv in H as (x & l3 & l4 & Hx & H & ->).
    injection H as <- <-. rewrite app_nil_r.
    apply Forall_app. split; [now apply IH in Hk | now apply IH in Hx].
  - destruct b; intros H;
      apply bind_Done_inv in H as (x & l1 & l2 & Hx & H & ->);
      injection H as <- <-; rewrite app_nil_r; now apply IH in Hx.
  - destruct b; intros [= <- <-]; constructor.
  - destruct vs as [| t0 [| t1 vs]].
    + intros [= <- <-]. constructor.
    + intros H. now apply IH in H.
    + intros H. apply bind_Done_inv in H as (x & l1 & l2 & Hx & H & ->).
      injection H as <- <-. rewrite app_nil_r.
      apply (tupleFields_log _ _ (fun u o l => IH u b o l) _ _ _ _ _ Hx).
  - destruct (String.eqb r "*ssa.opaqueType").
    + destruct b; intros [= <- <-]; constructor.
    + simpl. intros [= <- <-]. repeat constructor.
Qed.

(** X18: a named type bound to a Haxe class lowers to the name of the
    class and has the zero value [null], found without looking at what the
    type is declared as. *)
Theorem LangType_haxe_class (fuel : nat) (obj h errorInfo : string) :
  IsValidInPogo (types.Named obj) errorInfo = true ->
  getHaxeClass (TypeString (types.Named obj)) = Done h [] ->
  h <> EmptyString ->
  LangType (S fuel) (types.Named obj) false errorInfo = Done h [] /\
  LangType (S fuel) (types.Named obj) true errorInfo = Done "null" [].
Proof.
  intros Hv Hh Hne. cbn [LangType]. rewrite Hv, Hh.
  apply String.eqb_neq in Hne. simpl. rewrite Hne. now split.
Qed.

(** ** Further properties of Convert *)

(** X19: to a [Dynamic] destination the value is assigned without a cast,
    after [GOint64.toInt] when the source is a [GOint64]; this holds for
    every source, of the same lowered type or not. *)
Theorem Convert_to_Dynamic (fuel : nat) (register srcTyp : string)
    (destType : types.type) (v : ssa.Value) (errorInfo : string)
    (log : list diag) :
  LangType fuel (Underlying (ssa.TypeOf v)) false errorInfo
    = Done srcTyp log ->
  Convert fuel register "Dynamic" destType v errorInfo
    = Done (register +:+ "=" +:+
            (if String.eqb srcTyp "GOint64"
             then "GOint64.toInt(" +:+ IndirectValue v errorInfo +:+ ")"
             else IndirectValue v errorInfo) +:+ ";") log.
Proof.
  intros HL. unfold Convert. rewrite (bind_Done _ _ _ _ HL).
  destruct (String.eqb_spec srcTyp "Dynamic") as [-> | Hne];
    simpl; rewrite app_nil_r; reflexivity.
Qed.

(** X20: to a [String] destination, a slice of runes and a slice of bytes
    go through the decoding entry points of the run time, an [Int] is
    decoded as one rune, a [GOint64] after [GOint64.toInt], a [Dynamic] is
    cast; a slice of another element kind and any other source but a
    string log an error and give no code. *)
Theorem Convert_to_String (fuel : nat) (register srcTyp : string)
    (destType : types.type) (v : ssa.Value) (errorInfo : string)
    (log : list diag) :
  LangType fuel (Underlying (ssa.TypeOf v)) false errorInfo
    = Done srcTyp log ->
  (srcTyp = "Slice" ->
   forall elem k, Underlying (ssa.TypeOf v) = types.Slice elem ->
     Underlying elem = types.Basic k ->
     Convert fuel register "String" destType v errorInfo
     = match k with
       | types.Int32 =>
           Done (fromRunes register
                   ("Go_haxegoruntime_RRunes2RRaw.callFromRT(this._goroutine,"
                    +:+ IndirectValue v errorInfo +:+ ")")) log
       | types.Uint8 =>
           Done (register +:+ "=Force.toRawString(this._goroutine," +:+
                 IndirectValue v errorInfo +:+ ");") log
       | _ =>
           Done EmptyString
             (log ++ [Diag Error errorInfo "Haxe"
                        "haxe.Convert() - Unexpected slice type to convert to String"])
       end) /\
  (srcTyp = "Int" ->
   Convert fuel register "String" destType v errorInfo
   = Done (fromRunes register
             ("Go_haxegoruntime_RRune2RRaw.callFromRT(this._goroutine," +:+
              IndirectValue v errorInfo +:+ ")")) log) /\
  (srcTyp = "GOint64" ->
   Convert fuel register "String" destType v errorInfo
   = Done (fromRunes register
             ("Go_haxegoruntime_RRune2RRaw.callFromRT(this._goroutine," +:+
              "GOint64.toInt(" +:+ IndirectValue v errorInfo +:+ "))")) log) /\
  (srcTyp = "Dynamic" ->
   Convert fuel register "String" destType v errorInfo
   = Done (register +:+ "=cast(" +:+ IndirectValue v errorInfo +:+
           ",String);") log) /\
  (srcTyp <> "String" -> srcTyp <> "Slice" -> srcTyp <> "Int" ->
   srcTyp <> "GOint64" -> srcTyp <> "Dynamic" ->
   Convert fuel register "String" destType v errorInfo
   = Done EmptyString
       (log ++ [Diag Error errorInfo "Haxe"
                  ("haxe.Convert() - Unexpected type to convert to String: "
                   +:+ srcTyp)])).
Proof.
  intros HL. unfold Convert. rewrite (bind_Done _ _ _ _ HL).
  repeat split.
  - intros -> elem k He Hk. rewrite He. unfold sliceElem. simpl.
    rewrite Hk. destruct k; simpl; rewrite ?app_nil_r; reflexivity.
  - intros ->. simpl. now rewrite app_nil_r.
  - intros ->. simpl. now rewrite app_nil_r.
  - intros ->. simpl. now rewrite app_nil_r.
  - intros H1 H2 H3 H4 H5.
    apply String.eqb_neq in H1, H2, H3, H4, H5.
    rewrite H1. simpl. rewrite H2, H3, H4, H5. reflexivity.
Qed.

(** X21: to a [GOint64] destination, an [Int] is widened by
    [GOint64.ofInt], a [Float] is converted by [GOint64.ofUFloat] when the
    destination type is unsigned and by [GOint64.ofFloat] when it is
    signed, a [Dynamic] is assigned as it is, anything else but a
    [GOint64] is cast. *)
Theorem Convert_to_GOint64 (fuel : nat) (register srcTyp : string)
    (destType : types.type) (v : ssa.Value) (errorInfo : string)
    (log : list diag) :
  LangType fuel (Underlying (ssa.TypeOf v)) false errorInfo
    = Done srcTyp log ->
  (srcTyp = "Int" ->
   Convert fuel register "GOint64" destType v errorInfo
   = Done (register +:+ "=GOint64.ofInt(" +:+ IndirectValue v errorInfo +:+
           ");") log) /\
  (srcTyp = "Float" ->
   forall kd, Underlying destType = types.Basic kd ->
     Convert fuel register "GOint64" destType v errorInfo
     = Done (register +:+
             (if types.IsUnsigned kd
              then "=GOint64.ofUFloat(" else "=GOint64.ofFloat(") +:+
             IndirectValue v errorInfo +:+ ");") log) /\
  (srcTyp = "Dynamic" ->
   Convert fuel register "GOint64" destType v errorInfo
   = Done (register +:+ "=" +:+ IndirectValue v errorInfo +:+ ";") log) /\
  (srcTyp <> "GOint64" -> srcTyp <> "Int" -> srcTyp <> "Float" ->
   srcTyp <> "Dynamic" ->
   Convert fuel register "GOint64" destType v errorInfo
   = Done (register +:+ "=cast(" +:+ IndirectValue v errorInfo +:+
           ",GOint64);") log).
Proof.
  intros HL. unfold Convert. rewrite (bind_Done _ _ _ _ HL).
  repeat split.
  - intros ->. simpl. now rewrite app_nil_r.
  - intros -> kd Hd. simpl. rewrite Hd. simpl.
    destruct (types.IsUnsigned kd); simpl; now rewrite app_nil_r.
  - intros ->. simpl. now rewrite app_nil_r.
  - intros H1 H2 H3 H4. apply String.eqb_neq in H1, H2, H3, H4.
    rewrite H1. simpl. rewrite H2, H3, H4. simpl. now rewrite app_nil_r.
Qed.

(** X22: to a [Float] destination, the signedness of the source type
    decides: a [GOint64] goes through [GOint64.toUFloat] when unsigned and
    [GOint64.toFloat] when signed; an [Int] is assigned as it is when
    signed and widened without sign, through a [GOint64] of high word 0,
    when unsigned; anything else but a [Float] is cast. *)
Theorem Convert_to_Float (fuel : nat) (register srcTyp : string)
    (destType : types.type) (v : ssa.Value) (errorInfo : string)
    (log : list diag) :
  LangType fuel (Underlying (ssa.TypeOf v)) false errorInfo
    = Done srcTyp log ->
  (srcTyp = "GOint64" ->
   forall k, Underlying (ssa.TypeOf v) = types.Basic k ->
     Convert fuel register "Float" destType v errorInfo
     = Done (register +:+
             (if types.IsUnsigned k
              then "=GOint64.toUFloat(" else "=GOint64.toFloat(") +:+
             IndirectValue v errorInfo +:+ ");") log) /\
  (srcTyp = "Int" ->
   forall k, Underlying (ssa.TypeOf v) = types.Basic k ->
     Convert fuel register "Float" destType v errorInfo
     = Done (if types.IsUnsigned k
             then register +:+ "=GOint64.toUFloat(GOint64.make(0," +:+
                  IndirectValue v errorInfo +:+ "));"
             else register +:+ "=" +:+ IndirectValue v errorInfo +:+ ";")
         log) /\
  (srcTyp <> "Float" -> srcTyp <> "GOint64" -> srcTyp <> "Int" ->
   Convert fuel register "Float" destType v errorInfo
   = Done (register +:+ "=cast(" +:+ IndirectValue v errorInfo +:+
           ",Float);") log).
Proof.
  intros HL. unfold Convert. rewrite (bind_Done _ _ _ _ HL).
  repeat split.
  - intros -> k Hk. simpl. rewrite Hk. simpl.
    destruct (types.IsUnsigned k); simpl; now rewrite app_nil_r.
  - intros -> k Hk. simpl. rewrite Hk. simpl.
    destruct (types.IsUnsigned k); simpl; now rewrite app_nil_r.
  - intros H1 H2 H3. apply String.eqb_neq in H1, H2, H3.
    rewrite H1. simpl. rewrite H2, H3. simpl. now rewrite app_nil_r.
Qed.

(** ** Further properties of ChangeType, and MakeInterface *)

(** X23: outside the case of the unsafe pointer, [ChangeType] needs no
    lowering and logs nothing: a function becomes a closure of its [Go_]
    class, named after the receiver type for a method and after the package
    otherwise; for a destination bound to a Haxe class an interface value
    is unwrapped with [.val] and any other value is cast; in every other
    case the value is copied as it is. *)
Theorem ChangeType_without_lowering (fuel : nat) (register : string)
    (regTyp : types.type) (errorInfo : string) :
  (forall f,
     ChangeType fuel register regTyp (ssa.Fn f) errorInfo
     = Done (register +:+ "=" +:+ "new Closure(Go_" +:+
             LangName (match ssa.Recv f with
                       | Some rx => TypeString rx
                       | None => default EmptyString (ssa.Pkg f)
                       end) (ssa.Name f) +:+ ".call,[]);") []) /\
  (forall id typ hType,
     getHaxeClass (TypeString regTyp) = Done hType [] ->
     hType <> EmptyString ->
     ChangeType fuel register regTyp (ssa.Val id typ) errorInfo
     = Done (if isInterface (Underlying typ)
             then register +:+ "=" +:+
                  IndirectValue (ssa.Val id typ) errorInfo +:+ ".val;"
             else register +:+ "=cast " +:+
                  IndirectValue (ssa.Val id typ) errorInfo +:+ ";") []) /\
  (forall id typ,
     getHaxeClass (TypeString regTyp) = Done EmptyString [] ->
     Underlying typ <> types.Basic types.UnsafePointer ->
     ChangeType fuel register regTyp (ssa.Val id typ) errorInfo
     = Done (register +:+ "=" +:+
             IndirectValue (ssa.Val id typ) errorInfo +:+ ";") []).
Proof.
  split; [| split].
  - intros f. unfold ChangeType.
    destruct (ssa.Recv f); [reflexivity |]. destruct (ssa.Pkg f); reflexivity.
  - intros id typ hType Hh Hne. unfold ChangeType. rewrite Hh.
    apply String.eqb_neq in Hne. simpl. rewrite Hne. simpl.
    destruct (Underlying typ); reflexivity.
  - intros id typ Hh Hu. unfold ChangeType. rewrite Hh. simpl.
    destruct (Underlying typ) as [k | | | | | | | | | | |]; try reflexivity.
    destruct k; try reflexivity. congruence.
Qed.

(** X24: [MakeInterface] boxes the value with the ID of its own static
    type, not of the underlying one, and records that type and no other;
    the box is adapted by [Force.toHaxeParam] exactly when the type of the
    register is bound to a Haxe class. *)
Theorem MakeInterface_code (register : string) (regTyp : types.type)
    (v : ssa.Value) (errorInfo hType : string) (reg : Registry) :
  getHaxeClass (TypeString regTyp) = Done hType [] ->
  MakeInterface register regTyp v errorInfo reg
  = Done (register +:+ "=" +:+
          (if String.eqb hType EmptyString
           then "new Interface(" +:+ (LogTypeUse (ssa.TypeOf v) reg).1 +:+
                "," +:+ IndirectValue v errorInfo +:+ ")"
           else "Force.toHaxeParam(" +:+
                ("new Interface(" +:+ (LogTypeUse (ssa.TypeOf v) reg).1 +:+
                 "," +:+ IndirectValue v errorInfo +:+ ")") +:+ ")")
          +:+ ";",
          (LogTypeUse (ssa.TypeOf v) reg).2) [].
Proof.
  intros Hh. unfold MakeInterface.
  destruct (LogTypeUse (ssa.TypeOf v) reg) as [id reg']. rewrite Hh. simpl.
  destruct (String.eqb hType EmptyString); reflexivity.
Qed.

(** ** What Convert logs, and the source it cannot meet *)

Ltac nonempty_text :=
  let E := fresh "E" in
  intros E; apply (f_equal String.length) in E;
  rewrite ?length_app in E; simpl in E; rewrite ?length_app in E; lia.

Ltac convert_cases H :=
  repeat
    (simpl in H;
     first
       [ discriminate H
       | match type of H with
         | context [if ?c then _ else _] => destruct c eqn:?
         | context [sliceElem ?t] => destruct t
         | context [basicKind ?t] => destruct t
         | context [match ?k with types.Invalid => _ | _ => _ end] =>
             destruct k
         | context [types.IsUnsigned ?k] => destruct k
         end ]).

(** X25: [Convert] either writes a statement and logs nothing of its own,
    but for the one warning of the [UnsafePointer] destination, or writes
    nothing and logs exactly one error: no code is left out silently, and
    no code is written next to an error. *)
Theorem Convert_code_or_error (fuel : nat) (register langType : string)
    (destType : types.type) (v : ssa.Value) (errorInfo out : string)
    (log : list diag) :
  Convert fuel register langType destType v errorInfo = Done out log ->
  exists srcTyp l0 own,
    LangType fuel (Underlying (ssa.TypeOf v)) false errorInfo
      = Done srcTyp l0 /\
    log = l0 ++ own /\
    ((out <> EmptyString /\
      (own = [] \/
       (langType = "UnsafePointer" /\
        own = [Diag Warning errorInfo "Haxe"
                 "converting a pointer to an Unsafe Pointer"]))) \/
     (out = EmptyString /\
      exists m, own = [Diag Error errorInfo "Haxe" m])).
Proof.
  intros H. unfold Convert in H.
  apply bind_Done_inv in H as (srcTyp & l0 & own & HL & H & ->).
  exists srcTyp, l0, own. split; [exact HL |]. split; [reflexivity |].
  unfold fromRunes in H.
  convert_cases H;
    injection H as <- <-;
    first
      [ right; split; [reflexivity | eexists; reflexivity]
      | left; split; [nonempty_text |];
        first
          [ left; reflexivity
          | right; split; [| reflexivity];
            match goal with
            | E : String.eqb langType "UnsafePointer" = true |- _ =>
                now apply String.eqb_eq in E
            end ] ].
Qed.

Lemma startsWith_app (c : ascii) (s t : string) :
  s <> EmptyString -> startsWith c (s +:+ t) = startsWith c s.
Proof. destruct s; [congruence | reflexivity]. Qed.

Lemma app_nonempty (s t : string) : s <> EmptyString -> s +:+ t <> EmptyString.
Proof. destruct s; [congruence | discriminate]. Qed.

Lemma tupleFields_starts (lower : types.type -> res string) (c : ascii)
    (vars : list types.type) (ele : Z) (ret out : string)
    (log : list diag) :
  ret <> EmptyString ->
  tupleFields lower ele vars ret = Done out log ->
  startsWith c out = startsWith c ret /\ out <> EmptyString.
Proof.
  revert ele ret log.
  induction vars as [| t vars IH]; intros ele ret log Hne; simpl.
  - intros [= <- <-]. now split.
  - intros H. apply bind_Done_inv in H as (x & l1 & l2 & Hx & H & ->).
    apply IH in H as [H1 H2].
    + split; [| exact H2]. rewrite H1.
      destruct (ele =? 0); rewrite ?startsWith_app; trivial.
      now apply app_nonempty.
    + destruct (ele =? 0); repeat apply app_nonempty; exact Hne.
Qed.

Lemma Underlying_not_named (t : types.type) :
  (forall obj, isNamed (declared obj) = false) ->
  isNamed (Underlying t) = false.
Proof. intros Hd. destruct t; try reflexivity. apply Hd. Qed.

Lemma LangType_not_an_Array (fuel : nat) (t : types.type)
    (errorInfo out : string) (log : list diag) :
  (forall obj, isNamed (declared obj) = false) ->
  isNamed t = false ->
  LangType fuel t false errorInfo = Done out log ->
  startsWith "A" out = false.
Proof.
  intros Hd. revert t out log.
  induction fuel as [| fuel IH]; intros t out log Ht; [discriminate |].
  cbn [LangType].
  destruct (IsValidInPogo t errorInfo); [| now intros [= <- <-]].
  destruct t as [k | obj | | e | e | e len | fs | ky e | e | ps rs | vs | r];
    try discriminate Ht; try (now intros [= <- <-]).
  - destruct k; simpl; now intros [= <- <-].
  - intros H. apply bind_Done_inv in H as (x & l1 & l2 & Hx & H & ->).
    now injection H as <- <-.
  - destruct vs as [| t0 [| t1 vs]].
    + now intros [= <- <-].
    + apply IH. now apply Underlying_not_named.
    + intros H. apply bind_Done_inv in H as (x & l1 & l2 & Hx & H & ->).
      injection H as <- <-.
      apply (tupleFields_starts _ "A") in Hx as [H1 H2]; [| discriminate].
      now rewrite startsWith_app, H1.
  - destruct (String.eqb r "*ssa.opaqueType"); simpl; now intros [= <- <-].
Qed.

Lemma not_A_not_Array (s : string) :
  startsWith "A" s = false -> strings.HasPrefix s "Array<" = false.
Proof.
  destruct s as [| c r]; [reflexivity |]. unfold strings.HasPrefix.
  cbn [startsWith String.prefix]. intros E.
  destruct (ascii_dec "A" c) as [<- | _]; [discriminate E | reflexivity].
Qed.

(** X26: underlying types being never named, as go/types has it, the
    lowered type of a source never starts with [Array<], so the error that
    [Convert] keeps for such a source cannot be met: to a destination
    outside the seven it knows, a source of another lowered type is always
    cast to the destination and nothing is logged. *)
Theorem Convert_to_other_destination (fuel : nat)
    (register langType srcTyp : string) (destType : types.type)
    (v : ssa.Value) (errorInfo : string) (log : list diag) :
  (forall obj, isNamed (declared obj) = false) ->
  LangType fuel (Underlying (ssa.TypeOf v)) false errorInfo
    = Done srcTyp log ->
  srcTyp <> langType ->
  langType <> "Dynamic" -> langType <> "String" -> langType <> "Slice" ->
  langType <> "Int" -> langType <> "GOint64" -> langType <> "Float" ->
  langType <> "UnsafePointer" ->
  strings.HasPrefix srcTyp "Array<" = false /\
  Convert fuel register langType destType v errorInfo
    = Done (register +:+ "=cast(" +:+ IndirectValue v errorInfo +:+ "," +:+
            langType +:+ ");") log.
Proof.
  intros Hd HL Hs H1 H2 H3 H4 H5 H6 H7.
  assert (HA : strings.HasPrefix srcTyp "Array<" = false).
  { apply not_A_not_Array.
    apply (LangType_not_an_Array _ _ _ _ _ Hd
             (Underlying_not_named _ Hd) HL). }
  split; [exact HA |].
  unfold Convert. rewrite (bind_Done _ _ _ _ HL).
  apply String.eqb_neq in Hs, H1, H2, H3, H4, H5, H6, H7.
  rewrite Hs, H1, H2, H3, H4, H5, H6, H7, HA. simpl.
  now rewrite app_nil_r.
Qed.

(** ** Properties of FindTargetLang and isDupPkg *)

Lemma findFrom_found (k : Z) (l : list pogo.LanguageEntry) (s : string) :
  s ∈ map pogo.LanguageName l ->
  exists i : nat,
    pogo.findFrom k l s = (k + Z.of_nat i, None) /\
    map pogo.LanguageName l !! i = Some s /\
    (forall j : nat, (j < i)%nat -> map pogo.LanguageName l !! j <> Some s).
Proof.
  revert k. induction l as [| e l IH]; intros k Hin.
  - now apply elem_of_nil in Hin.
  - simpl. destruct (String.eqb_spec (pogo.LanguageName e) s) as [E | NE].
    + exists 0%nat. rewrite Z.add_0_r. repeat split.
      * simpl. now rewrite E.
      * intros j Hj. lia.
    + simpl in Hin. apply elem_of_cons in Hin as [-> | Hin]; [congruence |].
      destruct (IH (k + 1) Hin) as (i & H1 & H2 & H3).
      exists (S i). repeat split.
      * rewrite H1. f_equal. lia.
      * exact H2.
      * intros [| j] Hj; simpl; [congruence |]. apply H3. lia.
Qed.

Lemma findFrom_missing (k : Z) (l : list pogo.LanguageEntry) (s : string) :
  s ∉ map pogo.LanguageName l ->
  pogo.findFrom k l s = (-1, Some ("Target Language Not Found: " +:+ s)).
Proof.
  revert k. induction l as [| e l IH]; intros k Hin; [reflexivity |].
  simpl in *. apply not_elem_of_cons in Hin as [NE Hin].
  destruct (String.eqb_spec (pogo.LanguageName e) s) as [E | _];
    [congruence | now apply IH].
Qed.

(** X27: [FindTargetLang] returns the index of the first entry of the name
    asked for, an index inside the list, with no error; when no entry has
    the name it returns -1 and the error that names the language. *)
Theorem FindTargetLang_first (LanguageList : list pogo.LanguageEntry)
    (s : string) :
  (s ∈ map pogo.LanguageName LanguageList ->
   exists i : nat,
     pogo.FindTargetLang LanguageList s = (Z.of_nat i, None) /\
     (i < length LanguageList)%nat /\
     map pogo.LanguageName LanguageList !! i = Some s /\
     (forall j : nat, (j < i)%nat ->
        map pogo.LanguageName LanguageList !! j <> Some s)) /\
  (s ∉ map pogo.LanguageName LanguageList ->
   pogo.FindTargetLang LanguageList s
   = (-1, Some ("Target Language Not Found: " +:+ s))).
Proof.
  split.
  - intros Hin. destruct (findFrom_found 0 _ _ Hin) as (i & H1 & H2 & H3).
    exists i. repeat split; trivial.
    apply lookup_lt_Some in H2. now rewrite length_map in H2.
  - apply findFrom_missing.
Qed.

Lemma pnCount_nonneg (ap : list string) (pn : string) : 0 <= pogo.pnCount ap pn.
Proof.
  induction ap as [| n ap IH]; simpl; [lia |].
  destruct (String.eqb pn n); lia.
Qed.

Lemma pnCount_pos (ap : list string) (pn : string) :
  0 < pogo.pnCount ap pn <-> pn ∈ ap.
Proof.
  induction ap as [| n ap IH]; simpl.
  - split; [lia | intros H; now apply elem_of_nil in H].
  - rewrite elem_of_cons.
    destruct (String.eqb_spec pn n) as [E | NE].
    + pose proof (pnCount_nonneg ap pn). split; [now left | lia].
    + rewrite IH. split; [now right | intros [E | H]; congruence].
Qed.

Lemma pnCount_app (l1 l2 : list string) (pn : string) :
  pogo.pnCount (l1 ++ l2) pn = pogo.pnCount l1 pn + pogo.pnCount l2 pn.
Proof.
  induction l1 as [| n l1 IH]; simpl; [lia |].
  destruct (String.eqb pn n); lia.
Qed.

(** X28: [isDupPkg] is true of a name exactly when two packages, at two
    places of the list, have it; with all names different it is false of
    every name. *)
Theorem isDupPkg_two_places (ap : list string) (pn : string) :
  (pogo.isDupPkg ap pn = true <->
   exists l1 l2 l3, ap = l1 ++ pn :: l2 ++ pn :: l3) /\
  (NoDup ap -> pogo.isDupPkg ap pn = false).
Proof.
  assert (Hiff : pogo.isDupPkg ap pn = true <->
                 exists l1 l2 l3, ap = l1 ++ pn :: l2 ++ pn :: l3).
  { unfold pogo.isDupPkg. rewrite Z.ltb_lt. split.
    - induction ap as [| n ap IH]; simpl; [lia |].
      destruct (String.eqb_spec pn n) as [<- | NE].
      + intros H. assert (Hin : pn ∈ ap) by (apply pnCount_pos; lia).
        apply list_elem_of_split in Hin as (l2 & l3 & ->).
        now exists [], l2, l3.
      + intros H. destruct (IH H) as (l1 & l2 & l3 & ->).
        now exists (n :: l1), l2, l3.
    - intros (l1 & l2 & l3 & ->).
      rewrite pnCount_app. simpl. rewrite String.eqb_refl.
      rewrite pnCount_app. simpl. rewrite String.eqb_refl.
      pose proof (pnCount_nonneg l1 pn). pose proof (pnCount_nonneg l2 pn).
      pose proof (pnCount_nonneg l3 pn). lia. }
  split; [exact Hiff |].
  intros Hnd. apply not_true_is_false. intros H.
  apply Hiff in H as (l1 & l2 & l3 & ->).
  apply NoDup_app in Hnd as (_ & _ & Hnd).
  apply NoDup_cons in Hnd as [Hnot _]. apply Hnot.
  apply elem_of_app. right. now left.
Qed.

End Haxe.

(** ** The sample program *)

Lemma LangType_integer_kinds_witness :
  Sample.IsValidInPogo (types.Basic types.Int8) "pos" = true /\
  integerBits types.Int8 = Some 8 /\ 8 <= 32 /\
  types.Int8 <> types.Uintptr /\
  Sample.IsValidInPogo (types.Basic types.Uint64) "pos" = true /\
  integerBits types.Uint64 = Some 64 /\
  Sample.IsValidInPogo (types.Basic types.Uintptr) "pos" = true /\
  integerBits types.Uintptr = Some 32 /\
  (LangType Sample.IsValidInPogo Sample.declared Sample.TypeString
      Sample.Sizeof Sample.arrayOffsetCalc Sample.MakeID 1 (types.Basic types.Int8) false "pos" = Done "Int" [] /\
   LangType Sample.IsValidInPogo Sample.declared Sample.TypeString
      Sample.Sizeof Sample.arrayOffsetCalc Sample.MakeID 1 (types.Basic types.Int8) true "pos" = Done "0" []) /\
  (LangType Sample.IsValidInPogo Sample.declared Sample.TypeString
      Sample.Sizeof Sample.arrayOffsetCalc Sample.MakeID 1 (types.Basic types.Uint64) false "pos" = Done "GOint64" [] /\
   LangType Sample.IsValidInPogo Sample.declared Sample.TypeString
      Sample.Sizeof Sample.arrayOffsetCalc Sample.MakeID 1 (types.Basic types.Uint64) true "pos"
     = Done "GOint64.make(0,0)" []) /\
  (32 = 32 /\
   LangType Sample.IsValidInPogo Sample.declared Sample.TypeString
      Sample.Sizeof Sample.arrayOffsetCalc Sample.MakeID 1 (types.Basic types.Uintptr) false "pos" = Done "Dynamic" [] /\
   LangType Sample.IsValidInPogo Sample.declared Sample.TypeString
      Sample.Sizeof Sample.arrayOffsetCalc Sample.MakeID 1 (types.Basic types.Uintptr) true "pos" = Done "null" []).
Proof.
  split; [reflexivity |]. split; [reflexivity |]. split; [lia |].
  split; [discriminate |]. split; [reflexivity |]. split; [reflexivity |].
  split; [reflexivity |]. split; [reflexivity |].
  split; [| split].
  - destruct (LangType_integer_kinds Sample.IsValidInPogo Sample.declared Sample.TypeString
      Sample.Sizeof Sample.arrayOffsetCalc Sample.MakeID 0 types.Int8 8 "pos"
                eq_refl eq_refl) as (H & _ & _).
    apply H; [lia | discriminate].
  - destruct (LangType_integer_kinds Sample.IsValidInPogo Sample.declared Sample.TypeString
      Sample.Sizeof Sample.arrayOffsetCalc Sample.MakeID 0 types.Uint64 64 "pos"
                eq_refl eq_refl) as (_ & _ & H).
    apply H. reflexivity.
  - destruct (LangType_integer_kinds Sample.IsValidInPogo Sample.declared Sample.TypeString
      Sample.Sizeof Sample.arrayOffsetCalc Sample.MakeID 0 types.Uintptr 32 "pos"
                eq_refl eq_refl) as (_ & H & _).
    apply H. reflexivity.
Defined.

(** C1 as stated fails on [uintptr]: an unsigned integer kind of one
    32-bit word, which does not lower to [Int] with zero value [0]. *)
Lemma LangType_uintptr_is_Dynamic :
  integerBits types.Uintptr = Some 32 /\ 32 <= 32 /\
  LangType Sample.IsValidInPogo Sample.declared Sample.TypeString
      Sample.Sizeof Sample.arrayOffsetCalc Sample.MakeID 1 (types.Basic types.Uintptr) false "pos" = Done "Dynamic" [] /\
  "Dynamic" <> "Int" /\
  LangType Sample.IsValidInPogo Sample.declared Sample.TypeString
      Sample.Sizeof Sample.arrayOffsetCalc Sample.MakeID 1 (types.Basic types.Uintptr) true "pos" = Done "null" [] /\
  "null" <> "0".
Proof.
  split; [reflexivity |]. split; [lia |]. split; [reflexivity |].
  split; [discriminate |]. split; [reflexivity | discriminate].
Qed.

Lemma LangType_pointer_zero_value_witness :
  Sample.IsValidInPogo (types.Pointer (types.Named "main.Node")) "pos" = true /\
  LangType Sample.IsValidInPogo Sample.declared Sample.TypeString
      Sample.Sizeof Sample.arrayOffsetCalc Sample.MakeID 1 (types.Pointer (types.Named "main.Node")) true "pos" = Done "null" [].
Proof.
  split; [reflexivity |].
  apply (LangType_pointer_zero_value Sample.IsValidInPogo Sample.declared Sample.TypeString
      Sample.Sizeof Sample.arrayOffsetCalc Sample.MakeID 0 (types.Named "main.Node") "pos").
  reflexivity.
Defined.

(** The node that points to itself has its zero value after two calls. *)
Lemma LangType_self_referencing_struct :
  LangType Sample.IsValidInPogo Sample.declared Sample.TypeString
      Sample.Sizeof Sample.arrayOffsetCalc Sample.MakeID
      2 (types.Named "main.Node") true "pos" = Done "new Object(8)" [].
Proof. reflexivity. Qed.

(** A map type whose elements are of the same map type is another matter:
    the zero value of a map asks for the zero value of its elements, and
    no budget is enough. *)
Lemma LangType_recursive_map_runs_on (fuel : nat) :
  LangType Sample.IsValidInPogo Sample.declared Sample.TypeString
      Sample.Sizeof Sample.arrayOffsetCalc Sample.MakeID
      fuel (types.Named "main.Tree") true "pos" = OutOfFuel /\
  LangType Sample.IsValidInPogo Sample.declared Sample.TypeString
      Sample.Sizeof Sample.arrayOffsetCalc Sample.MakeID
      fuel (types.Map (types.Basic types.String) (types.Named "main.Tree"))
      true "pos" = OutOfFuel.
Proof.
  induction fuel as [| fuel [IHn IHm]]; [split; reflexivity |].
  split.
  - simpl.
    change (Sample.declared "main.Tree")
      with (types.Map (types.Basic types.String) (types.Named "main.Tree")).
    now rewrite IHm.
  - simpl. rewrite IHn. destruct fuel; reflexivity.
Qed.

Lemma Convert_same_lowered_type_witness :
  (LangType Sample.IsValidInPogo Sample.declared Sample.TypeString
      Sample.Sizeof Sample.arrayOffsetCalc Sample.MakeID 1 (Underlying Sample.declared (ssa.TypeOf Sample.x32)) false "pos"
     = Done "Int" [] /\
   "Int" <> "Float" /\
   Convert Sample.IsValidInPogo Sample.declared Sample.TypeString
      Sample.Sizeof Sample.arrayOffsetCalc Sample.MakeID
      Sample.IndirectValue Sample.intTypeCoersion 1 "r" "Int" (types.Basic types.Int32) Sample.x32 "pos"
     = Done "r=x;" []) /\
  (LangType Sample.IsValidInPogo Sample.declared Sample.TypeString
      Sample.Sizeof Sample.arrayOffsetCalc Sample.MakeID 1 (Underlying Sample.declared (ssa.TypeOf Sample.f64)) false "pos"
     = Done "Float" [] /\
   Underlying Sample.declared (ssa.TypeOf Sample.f64)
     = types.Basic types.Float64 /\
   Underlying Sample.declared (types.Basic types.Float32)
     = types.Basic types.Float32 /\
   Convert Sample.IsValidInPogo Sample.declared Sample.TypeString
      Sample.Sizeof Sample.arrayOffsetCalc Sample.MakeID
      Sample.IndirectValue Sample.intTypeCoersion 1 "r" "Float" (types.Basic types.Float32) Sample.f64 "pos"
     = Done "r=Force.toFloat32(f);" []) /\
  (LangType Sample.IsValidInPogo Sample.declared Sample.TypeString
      Sample.Sizeof Sample.arrayOffsetCalc Sample.MakeID 1 (Underlying Sample.declared (ssa.TypeOf Sample.f32)) false "pos"
     = Done "Float" [] /\
   Convert Sample.IsValidInPogo Sample.declared Sample.TypeString
      Sample.Sizeof Sample.arrayOffsetCalc Sample.MakeID
      Sample.IndirectValue Sample.intTypeCoersion 1 "r" "Float" (types.Basic types.Float64) Sample.f32 "pos"
     = Done "r=f;" []).
Proof.
  split; [| split].
  - split; [reflexivity |]. split; [discriminate |].
    destruct (Convert_same_lowered_type Sample.IsValidInPogo Sample.declared Sample.TypeString
      Sample.Sizeof Sample.arrayOffsetCalc Sample.MakeID
      Sample.IndirectValue Sample.intTypeCoersion 1 "r" "Int"
                (types.Basic types.Int32) Sample.x32 "pos" [] eq_refl)
      as [H _].
    apply H. discriminate.
  - split; [reflexivity |]. split; [reflexivity |]. split; [reflexivity |].
    destruct (Convert_same_lowered_type Sample.IsValidInPogo Sample.declared Sample.TypeString
      Sample.Sizeof Sample.arrayOffsetCalc Sample.MakeID
      Sample.IndirectValue Sample.intTypeCoersion 1 "r" "Float"
                (types.Basic types.Float32) Sample.f64 "pos" [] eq_refl)
      as [_ H].
    destruct (H eq_refl types.Float64 eq_refl) as [HC _].
    + intros _. exists types.Float32. reflexivity.
    + exact HC.
  - split; [reflexivity |].
    destruct (Convert_same_lowered_type Sample.IsValidInPogo Sample.declared Sample.TypeString
      Sample.Sizeof Sample.arrayOffsetCalc Sample.MakeID
      Sample.IndirectValue Sample.intTypeCoersion 1 "r" "Float"
                (types.Basic types.Float64) Sample.f32 "pos" [] eq_refl)
      as [_ H].
    destruct (H eq_refl types.Float32 eq_refl) as [HC _].
    + intros E. discriminate E.
    + exact HC.
Defined.

Lemma Convert_to_Int_witness :
  LangType Sample.IsValidInPogo Sample.declared Sample.TypeString
      Sample.Sizeof Sample.arrayOffsetCalc Sample.MakeID 1 (Underlying Sample.declared (ssa.TypeOf Sample.f64)) false "pos"
    = Done "Float" [] /\
  "Float" <> "Int" /\
  Convert Sample.IsValidInPogo Sample.declared Sample.TypeString
      Sample.Sizeof Sample.arrayOffsetCalc Sample.MakeID
      Sample.IndirectValue Sample.intTypeCoersion 1 "r" "Int" (types.Basic types.Int8) Sample.f64 "pos"
    = Done "r=Force.toInt8({var _f:Float=f;_f>=0?Math.floor(_f):Math.ceil(_f);});"
        [].
Proof.
  split; [reflexivity |]. split; [discriminate |].
  destruct (Convert_to_Int Sample.IsValidInPogo Sample.declared Sample.TypeString
      Sample.Sizeof Sample.arrayOffsetCalc Sample.MakeID
      Sample.IndirectValue Sample.intTypeCoersion 1 "r" "Float" (types.Basic types.Int8)
              Sample.f64 "pos" [] eq_refl) as (vInt & HC & HF & _).
  - discriminate.
  - rewrite (HF eq_refl) in HC. exact HC.
Defined.

(** C4: the code on a conversion from int32 to int8.  Both types lower to
    [Int], so the first test of [Convert] returns the plain assignment and
    the coercion of the destination type, which every source of the case
    [Int] gets, is not applied. *)
Lemma Convert_Int_to_Int_not_coerced :
  Convert Sample.IsValidInPogo Sample.declared Sample.TypeString
      Sample.Sizeof Sample.arrayOffsetCalc Sample.MakeID
      Sample.IndirectValue Sample.intTypeCoersion 1 "r" "Int" (types.Basic types.Int8) Sample.x32 "pos"
    = Done "r=x;" [] /\
  ~ coerced Sample.intTypeCoersion "r" (types.Basic types.Int8) "pos" "r=x;".
Proof.
  split; [reflexivity |].
  intros [vInt H]. unfold Sample.intTypeCoersion in H. simpl in H.
  discriminate H.
Qed.

Lemma Convert_to_Slice_witness :
  (LangType Sample.IsValidInPogo Sample.declared Sample.TypeString
      Sample.Sizeof Sample.arrayOffsetCalc Sample.MakeID 1 (Underlying Sample.declared (ssa.TypeOf Sample.x32)) false "pos"
     = Done "Int" [] /\
   "Int" <> "String" /\ "Int" <> "Slice" /\
   Convert Sample.IsValidInPogo Sample.declared Sample.TypeString
      Sample.Sizeof Sample.arrayOffsetCalc Sample.MakeID
      Sample.IndirectValue Sample.intTypeCoersion 1 "r" "Slice" (types.Named "main.Blob") Sample.x32 "pos"
     = Done EmptyString
         [Diag Error "pos" "Haxe"
            "haxe.Convert() - Unexpected type to convert to Slice ([]rune or []byte): Int"]) /\
  (LangType Sample.IsValidInPogo Sample.declared Sample.TypeString
      Sample.Sizeof Sample.arrayOffsetCalc Sample.MakeID 1 (Underlying Sample.declared (ssa.TypeOf Sample.blob)) false "pos"
     = Done "Slice" [] /\
   Convert Sample.IsValidInPogo Sample.declared Sample.TypeString
      Sample.Sizeof Sample.arrayOffsetCalc Sample.MakeID
      Sample.IndirectValue Sample.intTypeCoersion 1 "r" "Slice" (types.Slice (types.Basic types.Rune)) Sample.blob "pos"
     = Done "r=b;" []) /\
  (LangType Sample.IsValidInPogo Sample.declared Sample.TypeString
      Sample.Sizeof Sample.arrayOffsetCalc Sample.MakeID 1 (Underlying Sample.declared (ssa.TypeOf Sample.str)) false "pos"
     = Done "String" [] /\
   Underlying Sample.declared (types.Named "main.Blob")
     = types.Slice (types.Basic types.Byte) /\
   Convert Sample.IsValidInPogo Sample.declared Sample.TypeString
      Sample.Sizeof Sample.arrayOffsetCalc Sample.MakeID
      Sample.IndirectValue Sample.intTypeCoersion 1 "r" "Slice" (types.Named "main.Blob") Sample.str "pos"
     = Done "r=Force.toUTF8slice(this._goroutine,s);" []).
Proof.
  split; [| split].
  - split; [reflexivity |]. split; [discriminate |]. split; [discriminate |].
    destruct (Convert_to_Slice Sample.IsValidInPogo Sample.declared Sample.TypeString
      Sample.Sizeof Sample.arrayOffsetCalc Sample.MakeID
      Sample.IndirectValue Sample.intTypeCoersion 1 "r" "Int" (types.Named "main.Blob")
                Sample.x32 "pos" [] eq_refl) as (H & _ & _).
    apply H; discriminate.
  - split; [reflexivity |].
    destruct (Convert_to_Slice Sample.IsValidInPogo Sample.declared Sample.TypeString
      Sample.Sizeof Sample.arrayOffsetCalc Sample.MakeID
      Sample.IndirectValue Sample.intTypeCoersion 1 "r" "Slice"
                (types.Slice (types.Basic types.Rune)) Sample.blob "pos" []
                eq_refl) as (_ & H & _).
    exact (H eq_refl).
  - split; [reflexivity |]. split; [reflexivity |].
    destruct (Convert_to_Slice Sample.IsValidInPogo Sample.declared Sample.TypeString
      Sample.Sizeof Sample.arrayOffsetCalc Sample.MakeID
      Sample.IndirectValue Sample.intTypeCoersion 1 "r" "String" (types.Named "main.Blob")
                Sample.str "pos" [] eq_refl) as (_ & _ & H).
    destruct (H eq_refl (types.Basic types.Byte) eq_refl) as [_ HB].
    apply HB. reflexivity.
Defined.

(** C5 as stated fails on a source that is a slice itself: its lowered
    type is not [String], and yet the code is the plain assignment and no
    error is logged. *)
Lemma Convert_Slice_to_Slice_assigns :
  LangType Sample.IsValidInPogo Sample.declared Sample.TypeString
      Sample.Sizeof Sample.arrayOffsetCalc Sample.MakeID 1 (Underlying Sample.declared (ssa.TypeOf Sample.blob)) false "pos"
    = Done "Slice" [] /\
  "Slice" <> "String" /\
  Convert Sample.IsValidInPogo Sample.declared Sample.TypeString
      Sample.Sizeof Sample.arrayOffsetCalc Sample.MakeID
      Sample.IndirectValue Sample.intTypeCoersion 1 "r" "Slice" (types.Named "main.Blob") Sample.blob "pos"
    = Done "r=b;" [] /\
  "r=b;" <> EmptyString /\
  hasError [] = false.
Proof.
  split; [reflexivity |]. split; [discriminate |].
  split; [reflexivity |]. split; [discriminate | reflexivity].
Qed.

Lemma LangType_diagnostics_witness :
  Sample.IsValidInPogo (types.Basic types.UnsafePointer) "pos" = true /\
  (exists out log,
     LangType Sample.IsValidInPogo Sample.declared Sample.TypeString
      Sample.Sizeof Sample.arrayOffsetCalc Sample.MakeID 1 (types.Basic types.UnsafePointer) false "pos" = Done out log /\
     hasError log = false /\
     hasWarning log = warnedKind types.UnsafePointer /\
     (hasWarning log = true ->
        (failsHaxeCompilation out = true <->
           types.UnsafePointer = types.UntypedInt) /\
        (types.UnsafePointer <> types.UntypedInt ->
           out = "Pointer" \/ out = "Dynamic" \/ out = "null"))) /\
  Sample.IsValidInPogo (types.Other "*ssa.Range") "pos" = true /\
  "*ssa.Range" <> "*ssa.opaqueType" /\
  LangType Sample.IsValidInPogo Sample.declared Sample.TypeString
      Sample.Sizeof Sample.arrayOffsetCalc Sample.MakeID 1 (types.Other "*ssa.Range") false "pos"
    = Done "UNKNOWN_LANGTYPE"
        [Diag Error "pos" "Haxe"
           ("haxe.LangType() internal error, unhandled non-basic type: "
            +:+ "*ssa.Range")].
Proof.
  destruct (LangType_diagnostics Sample.IsValidInPogo Sample.declared Sample.TypeString
      Sample.Sizeof Sample.arrayOffsetCalc Sample.MakeID 0 false "pos") as [HB HO].
  split; [reflexivity |]. split; [exact (HB types.UnsafePointer eq_refl) |].
  split; [reflexivity |]. split; [discriminate |].
  destruct (HO "*ssa.Range" eq_refl) as [H _]; [discriminate | exact H].
Defined.

(** C6 as stated fails on the untyped integer: a warning is logged, and
    the text returned is one that fails the Haxe compilation. *)
Lemma LangType_untyped_int_warning_fails_compilation :
  LangType Sample.IsValidInPogo Sample.declared Sample.TypeString
      Sample.Sizeof Sample.arrayOffsetCalc Sample.MakeID 1 (types.Basic types.UntypedInt) false "pos"
    = Done "UNTYPED_INT"
        [Diag Warning "pos" "Haxe"
           "haxe.LangType() types.UntypedInt is ambiguous"] /\
  hasWarning [Diag Warning "pos" "Haxe"
                "haxe.LangType() types.UntypedInt is ambiguous"] = true /\
  failsHaxeCompilation "UNTYPED_INT" = true.
Proof. repeat split. Qed.

Lemma ChangeType_from_unsafe_pointer_witness :
  Underlying Sample.declared (ssa.TypeOf Sample.ptr)
    = types.Basic types.UnsafePointer /\
  getHaxeClass (Sample.TypeString (types.Named "main.NodePtr"))
    = Done EmptyString [] /\
  ChangeType Sample.IsValidInPogo Sample.declared Sample.TypeString
      Sample.Sizeof Sample.arrayOffsetCalc Sample.MakeID
      Sample.IndirectValue Sample.LangName
      2 "r" (types.Named "main.NodePtr") Sample.ptr "pos"
    = Done "r=null;" [].
Proof.
  split; [reflexivity |]. split; [reflexivity |].
  exact (ChangeType_from_unsafe_pointer Sample.IsValidInPogo Sample.declared Sample.TypeString
      Sample.Sizeof Sample.arrayOffsetCalc Sample.MakeID
           Sample.IndirectValue Sample.LangName
           2 "r" (types.Named "main.NodePtr") Sample.ptr "pos"
           eq_refl eq_refl).
Defined.

Lemma TypeAssert_code_witness :
  TypeAssert Sample.IndirectValue Z Sample.LogTypeUse
      EmptyString Sample.boxed (types.Basic types.Int8) true "pos" 7
    = (EmptyString, 7) /\
  "r" <> EmptyString /\
  TypeAssert Sample.IndirectValue Z Sample.LogTypeUse
      "r" Sample.boxed (types.Basic types.Int8) true "pos" 7
    = ("r=Interface.assertOk(7,i);", 8) /\
  TypeAssert Sample.IndirectValue Z Sample.LogTypeUse
      "r" Sample.boxed (types.Basic types.Int8) false "pos" 7
    = ("r=Interface.assert(7,i);", 8).
Proof.
  split; [| split; [discriminate | split]].
  - destruct (TypeAssert_code Sample.IndirectValue Z Sample.LogTypeUse
                EmptyString Sample.boxed (types.Basic types.Int8) true
                "pos" 7) as [H _].
    exact (H eq_refl).
  - destruct (TypeAssert_code Sample.IndirectValue Z Sample.LogTypeUse
                "r" Sample.boxed (types.Basic types.Int8) true "pos" 7)
      as [_ H].
    apply H. discriminate.
  - destruct (TypeAssert_code Sample.IndirectValue Z Sample.LogTypeUse
                "r" Sample.boxed (types.Basic types.Int8) false "pos" 7)
      as [_ H].
    apply H. discriminate.
Defined.

Lemma typIDs_duplicate_names_witness :
  typIDName Sample.TypeString Sample.haxeStringConst (types.Named "main.f.T")
    = dquote +:+ "main.T" +:+ dquote /\
  typIDName Sample.TypeString Sample.haxeStringConst (types.Named "main.g.T")
    = dquote +:+ "main.T" +:+ dquote /\
  dquote +:+ "main.T" +:+ dquote <> EmptyString /\
  typIDs Sample.TypeString Sample.haxeStringConst ∅ Sample.registry
    = [(dquote +:+ "int8" +:+ dquote, 1);
       (dquote +:+ "main.T" +:+ dquote, 2);
       (dquote +:+ "interface{}" +:+ dquote, 3);
       (dquote +:+ "main.T (duplicate type name! this id=4)" +:+ dquote, 4)].
Proof.
  split; [reflexivity |]. split; [reflexivity |]. split; [discriminate |].
  destruct (typIDs_duplicate_names Sample.TypeString Sample.haxeStringConst
              [(types.Basic types.Int8, 1)] [(types.Interface, 3)] []
              (types.Named "main.f.T") (types.Named "main.g.T") 2 4
              (dquote +:+ "main.T" +:+ dquote) eq_refl eq_refl)
    as [H _].
  - discriminate.
  - intros Hin. apply list_elem_of_In in Hin.
    destruct Hin as [E | []]. discriminate E.
  - exact H.
Defined.

Lemma isIdentical_isAssignableTo_witness :
  (forall X Y, Sample.Identical X Y = true -> Sample.AssignableTo X Y = true) /\
  isIdentical Sample.Identical Sample.registry 2 4 = true /\
  isAssignableTo Sample.AssignableTo Sample.registry 2 4 = true /\
  isIdentical Sample.Identical Sample.registry 2 2 = true /\
  isAssignableTo Sample.AssignableTo Sample.registry 2 2 = true.
Proof.
  assert (Hrel : forall X Y,
             Sample.Identical X Y = true -> Sample.AssignableTo X Y = true).
  { intros X Y H. unfold Sample.AssignableTo. rewrite H. reflexivity. }
  destruct (isIdentical_isAssignableTo Sample.AssignableTo Sample.Identical
              Sample.registry 2 4 Hrel) as [[Hi Ha] Himp].
  split; [exact Hrel |]. split; [reflexivity |].
  split; [apply Himp; reflexivity |]. split; [exact Hi | exact Ha].
Defined.

(** ** The sample program, continued *)

Lemma getHaxeClass_shape_witness :
  getHaxeClass "github.com/tardisgo/_haxeapi.Xflash_display_Sprite"
    = Done "flash.display.Sprite" [] /\
  hasChar "_" "flash.display.Sprite" = false /\
  startsWith "*" "github.com/tardisgo/_haxeapi.Xflash_display_Sprite"
    = false /\
  startsWith "_"
    (List.last
       (strings.Split "/"
          "github.com/tardisgo/_haxeapi.Xflash_display_Sprite")
       EmptyString) = true.
Proof.
  split; [reflexivity |].
  destruct (getHaxeClass_shape
              "github.com/tardisgo/_haxeapi.Xflash_display_Sprite"
              "flash.display.Sprite" [] eq_refl) as (_ & H1 & H2).
  split; [exact H1 |]. apply H2. discriminate.
Defined.

Lemma preprocessTypeName_plain_witness :
  hasChar (ascii_of_nat 34) "main.Node" = false /\
  hasChar "\" "main.Node" = false /\
  preprocessTypeName "main.Node" = "main.Node".
Proof.
  split; [reflexivity |]. split; [reflexivity |].
  apply preprocessTypeName_plain; reflexivity.
Defined.

Lemma getTypeInfo_fieldAlign_zero_witness :
  getTypeInfo Sample.declared Sample.ObjName 2 (types.Named "main.Node")
    EmptyString = Done (0, reflect.Struct, "Node") [] /\
  0 = 0 /\ @nil diag = [].
Proof.
  split; [reflexivity |].
  exact (getTypeInfo_fieldAlign_zero Sample.declared Sample.ObjName 2
           (types.Named "main.Node") EmptyString 0 reflect.Struct "Node" []
           eq_refl).
Defined.

Lemma getTypeInfo_name_witness :
  getTypeInfo Sample.declared Sample.ObjName 2 (types.Named "main.Node")
    EmptyString = Done (0, reflect.Struct, "Node") [] /\
  Sample.ObjName "main.Node" <> EmptyString /\
  "Node" = Sample.ObjName "main.Node".
Proof.
  split; [reflexivity |]. split; [discriminate |].
  destruct (getTypeInfo_name Sample.declared Sample.ObjName 2
              (types.Named "main.Node") EmptyString 0 reflect.Struct
              "Node" [] eq_refl) as (_ & _ & H).
  apply (H eq_refl "main.Node" eq_refl). discriminate.
Defined.

Lemma getTypeInfo_named_kind_witness :
  getTypeInfo Sample.declared Sample.ObjName 2 (types.Named "main.Node")
    EmptyString = Done (0, reflect.Struct, "Node") [] /\
  exists name',
    getTypeInfo Sample.declared Sample.ObjName 1
      (Sample.declared "main.Node") EmptyString
    = Done (0, reflect.Struct, name') [].
Proof.
  split; [reflexivity |].
  exact (getTypeInfo_named_kind Sample.declared Sample.ObjName 1
           "main.Node" 0 reflect.Struct "Node" [] eq_refl).
Defined.

Lemma getTypeInfo_panics_witness :
  typedKind types.Int8 = true /\
  (exists kind,
     getTypeInfo Sample.declared Sample.ObjName 1 (types.Basic types.Int8)
       "T" = Done (0, kind, "T") []) /\
  typedKind types.UntypedInt = false /\
  getTypeInfo Sample.declared Sample.ObjName 1
    (types.Basic types.UntypedInt) "T" = Panic.
Proof.
  destruct (getTypeInfo_panics Sample.declared Sample.ObjName 0 "T")
    as [H _].
  split; [reflexivity |].
  split; [exact (proj1 (H types.Int8) eq_refl) |].
  split; [reflexivity |].
  exact (proj2 (H types.UntypedInt) eq_refl).
Defined.

Lemma typesByID_in_range_witness :
  (0 <= 5 /\ Forall (fun e : types.type * Z => 0 <= e.2 < 5) Sample.registry) /\
  (exists tbl, typesByID 5 Sample.registry = Done tbl [] /\
               length tbl = Z.to_nat 5) /\
  ~ (0 <= 3 /\ Forall (fun e : types.type * Z => 0 <= e.2 < 3) Sample.registry) /\
  typesByID 3 Sample.registry = Panic.
Proof.
  assert (H5 : 0 <= 5 /\
               Forall (fun e : types.type * Z => 0 <= e.2 < 5)
                 Sample.registry).
  { split; [lia |]. repeat constructor; simpl; lia. }
  assert (H3 : ~ (0 <= 3 /\
                  Forall (fun e : types.type * Z => 0 <= e.2 < 3)
                    Sample.registry)).
  { intros [_ H]. unfold Sample.registry in H.
    apply Forall_cons in H as [_ H]. apply Forall_cons in H as [_ H].
    apply Forall_cons in H as [H _]. simpl in H. lia. }
  split; [exact H5 |].
  split; [exact (proj1 (typesByID_in_range 5 Sample.registry) H5) |].
  split; [exact H3 |].
  exact (proj2 (typesByID_in_range 3 Sample.registry) H3).
Defined.

Lemma typesByID_lookup_witness :
  typesByID 5 Sample.registry
    = Done [None; Some (types.Basic types.Int8);
            Some (types.Named "main.f.T"); Some types.Interface;
            Some (types.Named "main.g.T")] [] /\
  NoDup (map snd Sample.registry) /\
  [None; Some (types.Basic types.Int8); Some (types.Named "main.f.T");
   Some types.Interface; Some (types.Named "main.g.T")] !! Z.to_nat 4
    = Some (Some (types.Named "main.g.T")) /\
  [None; Some (types.Basic types.Int8); Some (types.Named "main.f.T");
   Some types.Interface; Some (types.Named "main.g.T")] !! 0%nat
    = Some None.
Proof.
  assert (Hnd : NoDup (map snd Sample.registry)).
  { apply NoDup_ListNoDup. repeat constructor; simpl; intuition lia. }
  destruct (typesByID_lookup 5 Sample.registry _ [] eq_refl Hnd)
    as [H1 H2].
  split; [reflexivity |]. split; [exact Hnd |]. split.
  - apply H1. apply list_elem_of_In. simpl. tauto.
  - apply H2; [simpl; lia |].
    intros Hin. apply list_elem_of_In in Hin. simpl in Hin.
    intuition lia.
Defined.

Lemma duplicateName_tells_ids_apart_witness :
  3 <> 4 /\
  duplicateName (dquote +:+ "main.T" +:+ dquote) 3
  <> duplicateName (dquote +:+ "main.T" +:+ dquote) 4.
Proof.
  split; [lia |]. apply duplicateName_tells_ids_apart. lia.
Defined.

Lemma relations_decide_witness :
  NoDup (map snd Sample.registry) /\
  ((types.Named "main.f.T", 2) ∈ Sample.registry) /\
  ((types.Interface, 3) ∈ Sample.registry) /\
  Sample.AssignableTo (types.Named "main.f.T") types.Interface = true /\
  isAssignableTo Sample.AssignableTo Sample.registry 2 3 = true /\
  (isIdentical Sample.Identical Sample.registry 2 3 = true ->
   2 = 3 \/ Sample.Identical (types.Named "main.f.T") types.Interface = true).
Proof.
  assert (Hnd : NoDup (map snd Sample.registry)).
  { apply NoDup_ListNoDup. repeat constructor; simpl; intuition lia. }
  assert (HA : (types.Named "main.f.T", 2) ∈ Sample.registry).
  { apply list_elem_of_In. simpl. tauto. }
  assert (HB : (types.Interface, 3) ∈ Sample.registry).
  { apply list_elem_of_In. simpl. tauto. }
  destruct (relations_decide Sample.AssignableTo Sample.Identical
              Sample.registry _ _ 2 3 Hnd HA HB) as [H1 H2].
  split; [exact Hnd |]. split; [exact HA |]. split; [exact HB |].
  split; [reflexivity |].
  split; [apply H1; right; reflexivity | apply H2].
Defined.

Lemma relations_unknown_id_witness :
  (9 ∉ map snd Sample.registry) /\
  isAssignableTo Sample.AssignableTo Sample.registry 9 2 = false /\
  isIdentical Sample.Identical Sample.registry 9 9 = true.
Proof.
  assert (H9 : 9 ∉ map snd Sample.registry).
  { intros Hin. apply list_elem_of_In in Hin. simpl in Hin. intuition lia. }
  split; [exact H9 |]. split.
  - exact (proj1 (relations_unknown_id Sample.AssignableTo Sample.Identical
                    Sample.registry 9 2 (or_introl H9))).
  - exact (proj2 (relations_unknown_id Sample.AssignableTo Sample.Identical
                    Sample.registry 9 9 (or_introl H9))).
Defined.

Lemma isConcrete_decides_witness :
  NoDup (map snd Sample.registry) /\
  ((types.Interface, 3) ∈ Sample.registry) /\
  isConcrete Sample.declared Sample.registry 3 = false /\
  ((types.Named "main.f.T", 2) ∈ Sample.registry) /\
  isConcrete Sample.declared Sample.registry 2 = true /\
  (9 ∉ map snd Sample.registry) /\
  isConcrete Sample.declared Sample.registry 9 = false.
Proof.
  assert (Hnd : NoDup (map snd Sample.registry)).
  { apply NoDup_ListNoDup. repeat constructor; simpl; intuition lia. }
  assert (HA : (types.Named "main.f.T", 2) ∈ Sample.registry).
  { apply list_elem_of_In. simpl. tauto. }
  assert (HB : (types.Interface, 3) ∈ Sample.registry).
  { apply list_elem_of_In. simpl. tauto. }
  assert (H9 : 9 ∉ map snd Sample.registry).
  { intros Hin. apply list_elem_of_In in Hin. simpl in Hin. intuition lia. }
  destruct (isConcrete_decides Sample.declared Sample.registry) as [H1 H2].
  split; [exact Hnd |]. split; [exact HB |].
  split; [exact (H1 Hnd _ _ HB) |]. split; [exact HA |].
  split; [exact (H1 Hnd _ _ HA) |]. split; [exact H9 |].
  exact (H2 9 H9).
Defined.

Lemma zeroValueCases_complete_witness :
  Forall (fun T : types.type * Z =>
            exists z l,
              LangType Sample.IsValidInPogo Sample.declared Sample.TypeString
      Sample.Sizeof Sample.arrayOffsetCalc Sample.MakeID 3 T.1 true "EmitTypeInfo()" = Done z l)
    ((types.Tuple [], 5) :: Sample.registry) /\
  (exists cases log,
     zeroValueCases Sample.IsValidInPogo Sample.declared Sample.TypeString
      Sample.Sizeof Sample.arrayOffsetCalc Sample.MakeID
         3 ((types.Tuple [], 5) :: Sample.registry) = Done cases log /\
     map fst cases = map snd ((types.Tuple [], 5) :: Sample.registry) /\
     Forall2 (fun (T : types.type * Z) (c : Z * string) =>
                exists z l,
                  LangType Sample.IsValidInPogo Sample.declared Sample.TypeString
      Sample.Sizeof Sample.arrayOffsetCalc Sample.MakeID 3 T.1 true "EmitTypeInfo()" = Done z l /\
                  c.2 = if String.eqb z EmptyString then "null" else z)
       ((types.Tuple [], 5) :: Sample.registry) cases /\
     Forall (fun c : Z * string => c.2 <> EmptyString) cases) /\
  zeroValueCases Sample.IsValidInPogo Sample.declared Sample.TypeString
      Sample.Sizeof Sample.arrayOffsetCalc Sample.MakeID
      3 ((types.Tuple [], 5) :: Sample.registry)
    = Done [(5, "null"); (1, "0"); (2, "0"); (3, "null"); (4, "0")] [] /\
  ~ Forall (fun T : types.type * Z =>
              exists z l,
                LangType Sample.IsValidInPogo Sample.declared Sample.TypeString
      Sample.Sizeof Sample.arrayOffsetCalc Sample.MakeID 3 T.1 true "EmitTypeInfo()" = Done z l)
      [(types.Named "main.Tree", 6)] /\
  (forall cases log,
     zeroValueCases Sample.IsValidInPogo Sample.declared Sample.TypeString
      Sample.Sizeof Sample.arrayOffsetCalc Sample.MakeID
         3 [(types.Named "main.Tree", 6)] <> Done cases log).
Proof.
  assert (Hall : Forall (fun T : types.type * Z =>
                           exists z l,
                             LangType Sample.IsValidInPogo Sample.declared Sample.TypeString
      Sample.Sizeof Sample.arrayOffsetCalc Sample.MakeID 3 T.1 true "EmitTypeInfo()" = Done z l)
                   ((types.Tuple [], 5) :: Sample.registry)).
  { repeat constructor; simpl; eexists _, _; reflexivity. }
  assert (Hnot : ~ Forall (fun T : types.type * Z =>
                             exists z l,
                               LangType Sample.IsValidInPogo Sample.declared Sample.TypeString
      Sample.Sizeof Sample.arrayOffsetCalc Sample.MakeID 3 T.1 true "EmitTypeInfo()" = Done z l)
                     [(types.Named "main.Tree", 6)]).
  { intros H. apply Forall_cons in H as [(z & l & H) _]. simpl in H.
    discriminate H. }
  destruct (zeroValueCases_complete Sample.IsValidInPogo Sample.declared Sample.TypeString
      Sample.Sizeof Sample.arrayOffsetCalc Sample.MakeID
              3 ((types.Tuple [], 5) :: Sample.registry)) as [H1 _].
  destruct (zeroValueCases_complete Sample.IsValidInPogo Sample.declared Sample.TypeString
      Sample.Sizeof Sample.arrayOffsetCalc Sample.MakeID
              3 [(types.Named "main.Tree", 6)]) as [_ H2].
  split; [exact Hall |]. split; [exact (H1 Hall) |].
  split; [reflexivity |]. split; [exact Hnot |]. exact (H2 Hnot).
Defined.

Lemma LangType_diagnostics_tagged_witness :
  LangType Sample.IsValidInPogo Sample.declared Sample.TypeString
      Sample.Sizeof Sample.arrayOffsetCalc Sample.MakeID
      2 (types.Tuple [types.Basic types.UntypedInt;
                      types.Basic types.UnsafePointer]) false "pos"
    = Done "{r0:UNTYPED_INT,r1:Pointer}"
        [Diag Warning "pos" "Haxe"
           "haxe.LangType() types.UntypedInt is ambiguous";
         Diag Warning "pos" "Haxe" "Unsafe Pointer"] /\
  Forall (fun d => pos d = "pos" /\ backend d = "Haxe")
    [Diag Warning "pos" "Haxe"
       "haxe.LangType() types.UntypedInt is ambiguous";
     Diag Warning "pos" "Haxe" "Unsafe Pointer"].
Proof.
  split; [reflexivity |].
  exact (LangType_diagnostics_tagged Sample.IsValidInPogo Sample.declared Sample.TypeString
      Sample.Sizeof Sample.arrayOffsetCalc Sample.MakeID
           2 (types.Tuple [types.Basic types.UntypedInt;
                           types.Basic types.UnsafePointer]) false "pos"
           _ _ eq_refl).
Defined.

Lemma LangType_haxe_class_witness :
  Sample.IsValidInPogo
    (types.Named "github.com/tardisgo/_haxeapi.Xflash_display_Sprite") "pos"
    = true /\
  getHaxeClass
    (Sample.TypeString
       (types.Named "github.com/tardisgo/_haxeapi.Xflash_display_Sprite"))
    = Done "flash.display.Sprite" [] /\
  "flash.display.Sprite" <> EmptyString /\
  LangType Sample.IsValidInPogo Sample.declared Sample.TypeString
      Sample.Sizeof Sample.arrayOffsetCalc Sample.MakeID
      1 (types.Named "github.com/tardisgo/_haxeapi.Xflash_display_Sprite")
      false "pos" = Done "flash.display.Sprite" [] /\
  LangType Sample.IsValidInPogo Sample.declared Sample.TypeString
      Sample.Sizeof Sample.arrayOffsetCalc Sample.MakeID
      1 (types.Named "github.com/tardisgo/_haxeapi.Xflash_display_Sprite")
      true "pos" = Done "null" [].
Proof.
  split; [reflexivity |]. split; [reflexivity |]. split; [discriminate |].
  apply (LangType_haxe_class Sample.IsValidInPogo Sample.declared Sample.TypeString
      Sample.Sizeof Sample.arrayOffsetCalc Sample.MakeID
           0 "github.com/tardisgo/_haxeapi.Xflash_display_Sprite"
           "flash.display.Sprite" "pos"); [reflexivity | reflexivity |].
  discriminate.
Defined.

Lemma Convert_to_Dynamic_witness :
  LangType Sample.IsValidInPogo Sample.declared Sample.TypeString
      Sample.Sizeof Sample.arrayOffsetCalc Sample.MakeID 1 (Underlying Sample.declared (ssa.TypeOf Sample.x64)) false "pos"
    = Done "GOint64" [] /\
  Convert Sample.IsValidInPogo Sample.declared Sample.TypeString
      Sample.Sizeof Sample.arrayOffsetCalc Sample.MakeID
      Sample.IndirectValue Sample.intTypeCoersion 1 "r" "Dynamic" (types.Basic types.Uintptr) Sample.x64 "pos"
    = Done "r=GOint64.toInt(x);" [].
Proof.
  split; [reflexivity |].
  exact (Convert_to_Dynamic Sample.IsValidInPogo Sample.declared Sample.TypeString
      Sample.Sizeof Sample.arrayOffsetCalc Sample.MakeID
      Sample.IndirectValue Sample.intTypeCoersion 1 "r" "GOint64"
           (types.Basic types.Uintptr) Sample.x64 "pos" [] eq_refl).
Defined.

Lemma Convert_to_String_witness :
  LangType Sample.IsValidInPogo Sample.declared Sample.TypeString
      Sample.Sizeof Sample.arrayOffsetCalc Sample.MakeID 1 (Underlying Sample.declared (ssa.TypeOf Sample.blob)) false "pos"
    = Done "Slice" [] /\
  Underlying Sample.declared (ssa.TypeOf Sample.blob)
    = types.Slice (types.Basic types.Byte) /\
  Underlying Sample.declared (types.Basic types.Byte)
    = types.Basic types.Uint8 /\
  Convert Sample.IsValidInPogo Sample.declared Sample.TypeString
      Sample.Sizeof Sample.arrayOffsetCalc Sample.MakeID
      Sample.IndirectValue Sample.intTypeCoersion 1 "r" "String" (types.Basic types.String) Sample.blob "pos"
    = Done "r=Force.toRawString(this._goroutine,b);" [] /\
  LangType Sample.IsValidInPogo Sample.declared Sample.TypeString
      Sample.Sizeof Sample.arrayOffsetCalc Sample.MakeID 1 (Underlying Sample.declared (ssa.TypeOf Sample.flag)) false "pos"
    = Done "Bool" [] /\
  Convert Sample.IsValidInPogo Sample.declared Sample.TypeString
      Sample.Sizeof Sample.arrayOffsetCalc Sample.MakeID
      Sample.IndirectValue Sample.intTypeCoersion 1 "r" "String" (types.Basic types.String) Sample.flag "pos"
    = Done EmptyString
        [Diag Error "pos" "Haxe"
           "haxe.Convert() - Unexpected type to convert to String: Bool"].
Proof.
  split; [reflexivity |]. split; [reflexivity |]. split; [reflexivity |].
  split.
  - destruct (Convert_to_String Sample.IsValidInPogo Sample.declared Sample.TypeString
      Sample.Sizeof Sample.arrayOffsetCalc Sample.MakeID
      Sample.IndirectValue Sample.intTypeCoersion 1 "r" "Slice"
                (types.Basic types.String) Sample.blob "pos" [] eq_refl)
      as [H _].
    exact (H eq_refl (types.Basic types.Byte) types.Uint8 eq_refl eq_refl).
  - split; [reflexivity |].
    destruct (Convert_to_String Sample.IsValidInPogo Sample.declared Sample.TypeString
      Sample.Sizeof Sample.arrayOffsetCalc Sample.MakeID
      Sample.IndirectValue Sample.intTypeCoersion 1 "r" "Bool"
                (types.Basic types.String) Sample.flag "pos" [] eq_refl)
      as (_ & _ & _ & _ & H).
    apply H; discriminate.
Defined.

Lemma Convert_to_GOint64_witness :
  LangType Sample.IsValidInPogo Sample.declared Sample.TypeString
      Sample.Sizeof Sample.arrayOffsetCalc Sample.MakeID 1 (Underlying Sample.declared (ssa.TypeOf Sample.f64)) false "pos"
    = Done "Float" [] /\
  Underlying Sample.declared (types.Basic types.Uint64)
    = types.Basic types.Uint64 /\
  Convert Sample.IsValidInPogo Sample.declared Sample.TypeString
      Sample.Sizeof Sample.arrayOffsetCalc Sample.MakeID
      Sample.IndirectValue Sample.intTypeCoersion 1 "r" "GOint64" (types.Basic types.Uint64) Sample.f64 "pos"
    = Done "r=GOint64.ofUFloat(f);" [] /\
  Convert Sample.IsValidInPogo Sample.declared Sample.TypeString
      Sample.Sizeof Sample.arrayOffsetCalc Sample.MakeID
      Sample.IndirectValue Sample.intTypeCoersion 1 "r" "GOint64" (types.Basic types.Int64) Sample.f64 "pos"
    = Done "r=GOint64.ofFloat(f);" [].
Proof.
  split; [reflexivity |]. split; [reflexivity |]. split.
  - destruct (Convert_to_GOint64 Sample.IsValidInPogo Sample.declared Sample.TypeString
      Sample.Sizeof Sample.arrayOffsetCalc Sample.MakeID
      Sample.IndirectValue Sample.intTypeCoersion 1 "r" "Float"
                (types.Basic types.Uint64) Sample.f64 "pos" [] eq_refl)
      as (_ & H & _).
    exact (H eq_refl types.Uint64 eq_refl).
  - destruct (Convert_to_GOint64 Sample.IsValidInPogo Sample.declared Sample.TypeString
      Sample.Sizeof Sample.arrayOffsetCalc Sample.MakeID
      Sample.IndirectValue Sample.intTypeCoersion 1 "r" "Float"
                (types.Basic types.Int64) Sample.f64 "pos" [] eq_refl)
      as (_ & H & _).
    exact (H eq_refl types.Int64 eq_refl).
Defined.

Lemma Convert_to_Float_witness :
  LangType Sample.IsValidInPogo Sample.declared Sample.TypeString
      Sample.Sizeof Sample.arrayOffsetCalc Sample.MakeID 1 (Underlying Sample.declared
           (ssa.TypeOf (ssa.Val "u" (types.Basic types.Uint32)))) false "pos"
    = Done "Int" [] /\
  Convert Sample.IsValidInPogo Sample.declared Sample.TypeString
      Sample.Sizeof Sample.arrayOffsetCalc Sample.MakeID
      Sample.IndirectValue Sample.intTypeCoersion 1 "r" "Float" (types.Basic types.Float64)
      (ssa.Val "u" (types.Basic types.Uint32)) "pos"
    = Done "r=GOint64.toUFloat(GOint64.make(0,u));" [] /\
  Convert Sample.IsValidInPogo Sample.declared Sample.TypeString
      Sample.Sizeof Sample.arrayOffsetCalc Sample.MakeID
      Sample.IndirectValue Sample.intTypeCoersion 1 "r" "Float" (types.Basic types.Float64) Sample.x32 "pos"
    = Done "r=x;" [] /\
  Convert Sample.IsValidInPogo Sample.declared Sample.TypeString
      Sample.Sizeof Sample.arrayOffsetCalc Sample.MakeID
      Sample.IndirectValue Sample.intTypeCoersion 1 "r" "Float" (types.Basic types.Float64) Sample.x64 "pos"
    = Done "r=GOint64.toFloat(x);" [].
Proof.
  split; [reflexivity |]. split; [| split].
  - destruct (Convert_to_Float Sample.IsValidInPogo Sample.declared Sample.TypeString
      Sample.Sizeof Sample.arrayOffsetCalc Sample.MakeID
      Sample.IndirectValue Sample.intTypeCoersion 1 "r" "Int"
                (types.Basic types.Float64)
                (ssa.Val "u" (types.Basic types.Uint32)) "pos" [] eq_refl)
      as (_ & H & _).
    exact (H eq_refl types.Uint32 eq_refl).
  - destruct (Convert_to_Float Sample.IsValidInPogo Sample.declared Sample.TypeString
      Sample.Sizeof Sample.arrayOffsetCalc Sample.MakeID
      Sample.IndirectValue Sample.intTypeCoersion 1 "r" "Int"
                (types.Basic types.Float64) Sample.x32 "pos" [] eq_refl)
      as (_ & H & _).
    exact (H eq_refl types.Int32 eq_refl).
  - destruct (Convert_to_Float Sample.IsValidInPogo Sample.declared Sample.TypeString
      Sample.Sizeof Sample.arrayOffsetCalc Sample.MakeID
      Sample.IndirectValue Sample.intTypeCoersion 1 "r" "GOint64"
                (types.Basic types.Float64) Sample.x64 "pos" [] eq_refl)
      as (H & _).
    exact (H eq_refl types.Int64 eq_refl).
Defined.

Lemma ChangeType_without_lowering_witness :
  getHaxeClass (Sample.TypeString (types.Named "main.Node"))
    = Done EmptyString [] /\
  Underlying Sample.declared (types.Basic types.Int32)
    <> types.Basic types.UnsafePointer /\
  ChangeType Sample.IsValidInPogo Sample.declared Sample.TypeString
      Sample.Sizeof Sample.arrayOffsetCalc Sample.MakeID
      Sample.IndirectValue Sample.LangName
      0 "r" (types.Named "main.Node") (ssa.Val "x" (types.Basic types.Int32))
      "pos" = Done "r=x;" [] /\
  getHaxeClass
    (Sample.TypeString
       (types.Named "github.com/tardisgo/_haxeapi.Xflash_display_Sprite"))
    = Done "flash.display.Sprite" [] /\
  ChangeType Sample.IsValidInPogo Sample.declared Sample.TypeString
      Sample.Sizeof Sample.arrayOffsetCalc Sample.MakeID
      Sample.IndirectValue Sample.LangName
      0 "r"
      (types.Named "github.com/tardisgo/_haxeapi.Xflash_display_Sprite")
      (ssa.Val "i" types.Interface) "pos" = Done "r=i.val;" [].
Proof.
  destruct (ChangeType_without_lowering Sample.IsValidInPogo Sample.declared Sample.TypeString
      Sample.Sizeof Sample.arrayOffsetCalc Sample.MakeID
              Sample.IndirectValue Sample.LangName
              0 "r" (types.Named "main.Node") "pos") as (_ & _ & H3).
  destruct (ChangeType_without_lowering Sample.IsValidInPogo Sample.declared Sample.TypeString
      Sample.Sizeof Sample.arrayOffsetCalc Sample.MakeID
              Sample.IndirectValue Sample.LangName
              0 "r"
              (types.Named
                 "github.com/tardisgo/_haxeapi.Xflash_display_Sprite")
              "pos") as (_ & H2 & _).
  split; [reflexivity |]. split; [discriminate |].
  split; [apply H3; [reflexivity | discriminate] |].
  split; [reflexivity |].
  apply (H2 "i" types.Interface "flash.display.Sprite");
    [reflexivity | discriminate].
Defined.

Lemma MakeInterface_code_witness :
  getHaxeClass (Sample.TypeString types.Interface) = Done EmptyString [] /\
  MakeInterface Sample.TypeString Sample.IndirectValue Z Sample.LogTypeUse
      "r" types.Interface Sample.x32 "pos" 7
    = Done ("r=new Interface(7,x);", 8) [].
Proof.
  split; [reflexivity |].
  exact (MakeInterface_code Sample.TypeString Sample.IndirectValue Z
           Sample.LogTypeUse "r" types.Interface Sample.x32 "pos"
           EmptyString 7 eq_refl).
Defined.

Lemma Convert_code_or_error_witness :
  Convert Sample.IsValidInPogo Sample.declared Sample.TypeString
      Sample.Sizeof Sample.arrayOffsetCalc Sample.MakeID
      Sample.IndirectValue Sample.intTypeCoersion 1 "r" "Slice" (types.Named "main.Blob") Sample.x32 "pos"
    = Done EmptyString
        [Diag Error "pos" "Haxe"
           "haxe.Convert() - Unexpected type to convert to Slice ([]rune or []byte): Int"] /\
  exists srcTyp l0 own,
    LangType Sample.IsValidInPogo Sample.declared Sample.TypeString
      Sample.Sizeof Sample.arrayOffsetCalc Sample.MakeID 1 (Underlying Sample.declared (ssa.TypeOf Sample.x32)) false "pos"
      = Done srcTyp l0 /\
    [Diag Error "pos" "Haxe"
       "haxe.Convert() - Unexpected type to convert to Slice ([]rune or []byte): Int"]
      = l0 ++ own /\
    ((EmptyString <> EmptyString /\
      (own = [] \/
       ("Slice" = "UnsafePointer" /\
        own = [Diag Warning "pos" "Haxe"
                 "converting a pointer to an Unsafe Pointer"]))) \/
     (EmptyString = EmptyString /\
      exists m, own = [Diag Error "pos" "Haxe" m])).
Proof.
  split; [reflexivity |].
  exact (Convert_code_or_error Sample.IsValidInPogo Sample.declared Sample.TypeString
      Sample.Sizeof Sample.arrayOffsetCalc Sample.MakeID
      Sample.IndirectValue Sample.intTypeCoersion 1 "r" "Slice"
           (types.Named "main.Blob") Sample.x32 "pos" EmptyString _ eq_refl).
Defined.

Lemma Convert_to_other_destination_witness :
  (forall obj, isNamed (Sample.declared obj) = false) /\
  LangType Sample.IsValidInPogo Sample.declared Sample.TypeString
      Sample.Sizeof Sample.arrayOffsetCalc Sample.MakeID 1 (Underlying Sample.declared (ssa.TypeOf Sample.x32)) false "pos"
    = Done "Int" [] /\
  strings.HasPrefix "Int" "Array<" = false /\
  Convert Sample.IsValidInPogo Sample.declared Sample.TypeString
      Sample.Sizeof Sample.arrayOffsetCalc Sample.MakeID
      Sample.IndirectValue Sample.intTypeCoersion 1 "r" "Complex" (types.Basic types.Complex128) Sample.x32 "pos"
    = Done "r=cast(x,Complex);" [].
Proof.
  assert (Hd : forall obj, isNamed (Sample.declared obj) = false).
  { intros obj. unfold Sample.declared.
    repeat match goal with
           | |- context [String.eqb ?a ?b] => destruct (String.eqb a b)
           end; reflexivity. }
  split; [exact Hd |]. split; [reflexivity |].
  apply (Convert_to_other_destination Sample.IsValidInPogo Sample.declared Sample.TypeString
      Sample.Sizeof Sample.arrayOffsetCalc Sample.MakeID
      Sample.IndirectValue Sample.intTypeCoersion 1 "r" "Complex" "Int"
           (types.Basic types.Complex128) Sample.x32 "pos" [] Hd eq_refl);
    discriminate.
Defined.

Lemma FindTargetLang_first_witness :
  ("haxe" ∈ map pogo.LanguageName Sample.LanguageList) /\
  pogo.FindTargetLang Sample.LanguageList "haxe" = (0, None) /\
  ("java" ∉ map pogo.LanguageName Sample.LanguageList) /\
  pogo.FindTargetLang Sample.LanguageList "java"
    = (-1, Some "Target Language Not Found: java").
Proof.
  assert (Hin : "haxe" ∈ map pogo.LanguageName Sample.LanguageList).
  { apply list_elem_of_In. simpl. tauto. }
  assert (Hout : "java" ∉ map pogo.LanguageName Sample.LanguageList).
  { intros H. apply list_elem_of_In in H. simpl in H.
    destruct H as [H | [H | [H | []]]]; discriminate H. }
  destruct (FindTargetLang_first Sample.LanguageList "haxe") as [H1 _].
  destruct (FindTargetLang_first Sample.LanguageList "java") as [_ H2].
  split; [exact Hin |]. split; [reflexivity |]. split; [exact Hout |].
  exact (H2 Hout).
Defined.

Lemma isDupPkg_two_places_witness :
  pogo.isDupPkg ["main"; "fmt"; "main"] "main" = true /\
  NoDup ["main"; "fmt"] /\
  pogo.isDupPkg ["main"; "fmt"] "main" = false.
Proof.
  assert (Hnd : NoDup ["main"; "fmt"]).
  { apply NoDup_ListNoDup. repeat constructor; simpl.
    - intros [H | []]. discriminate H.
    - intros []. }
  split.
  - apply (proj1 (isDupPkg_two_places ["main"; "fmt"; "main"] "main")).
    now exists [], ["fmt"], [].
  - split; [exact Hnd |].
    exact (proj2 (isDupPkg_two_places ["main"; "fmt"] "main") Hnd).
Defined.
